(** * multipage-tiff-compressor: a shallow embedding of [main.py]

    The program loads the JPEG/PNG files of a folder with PIL, converts
    them to a colour space and saves them as one multi-page TIFF.  The
    Python code is embedded as functions in a state-and-exception monad
    over a [World] that holds the two mutable objects of the program (the
    loader and the converter), the console and the files written.  The
    file system that is read and the PIL codec are external: they are
    the fields of an [Env] record. *)

From Stdlib Require Import ZArith QArith Qround Qabs Lqa List Bool Ascii String Lia.
From stdpp Require Import base gmap strings.
Import ListNotations.

Local Open Scope Z_scope.
Local Open Scope string_scope.

(** ** Python strings

    File names are strings of bytes.  [str.lower] is modelled on ASCII
    letters, which is all the suffix test of the loader can observe: no
    character outside [A-Z] lowercases to one of [. e g j n p]. *)

Definition ascii_lower (c : ascii) : ascii :=
  let n := nat_of_ascii c in
  if ((65 <=? n)%nat && (n <=? 90)%nat)%bool then ascii_of_nat (n + 32) else c.

(** [str.lower()] *)
Fixpoint lower (s : string) : string :=
  match s with
  | EmptyString => EmptyString
  | String c s' => String (ascii_lower c) (lower s')
  end.

(** [s.endswith(suffix)]: some tail of [s] is [suffix]. *)
Fixpoint endswith (s suffix : string) : bool :=
  String.eqb s suffix
  || match s with
     | EmptyString => false
     | String _ s' => endswith s' suffix
     end.

(** [s.endswith((t1, t2, ...))] with a tuple of suffixes. *)
Definition endswith_any (s : string) (suffixes : list string) : bool :=
  existsb (endswith s) suffixes.

(** [os.path.join(a, b)] for two components (posixpath). *)
Definition startswith_slash (s : string) : bool :=
  match s with
  | String c _ => Ascii.eqb c "/"
  | EmptyString => false
  end.

Definition path_join (a b : string) : string :=
  if startswith_slash b then b
  else if (String.eqb a "" || endswith a "/")%bool then String.append a b
  else String.append a (String.append "/" b).

(** ** Python numbers

    DPI metadata is a pair of ints or finite floats; both are rationals.
    [round(x)] with one argument rounds to the nearest integer, ties to
    the even one, and returns an int. *)

Definition py_round (q : Q) : Z :=
  let f := Qfloor q in
  match Qcompare (q - inject_Z f) (1 # 2) with
  | Lt => f
  | Gt => f + 1
  | Eq => if Z.even f then f else f + 1
  end.

(** ** Exceptions *)

Inductive exc_class : Type :=
  | FileNotFoundError
  | NotADirectoryError
  | PermissionError
  | UnidentifiedImageError
  | OSError
  | ValueError
  | DecompressionBombError
  | NotImplementedError.

(** [isinstance(e, (IOError, OSError))]; [IOError] is an alias of
    [OSError] in Python 3. *)
Definition is_OSError (c : exc_class) : bool :=
  match c with
  | FileNotFoundError | NotADirectoryError | PermissionError
  | UnidentifiedImageError | OSError => true
  | ValueError | DecompressionBombError | NotImplementedError => false
  end.

(** An exception object: its class and [str(e)]. *)
Record exn : Type := Exn { exc_type : exc_class; exc_str : string }.

Inductive result (A : Type) : Type :=
  | Ok (a : A)
  | Raise (e : exn).
Arguments Ok {A} a.
Arguments Raise {A} e.

(** ** Data model *)

(** A PIL image: where it was read from, its mode, and [info.get('dpi')]. *)
Record Image : Type := mkImage {
  im_source : string;
  im_mode : string;
  info_dpi : option (Q * Q)
}.

(** One page of a TIFF file as written by [Image.save]. *)
Record TiffPage : Type := mkPage {
  page_image : Image;
  page_dpi : Z * Z;
  page_compression : string;
  page_quality : Z
}.

Module JpegToTiffConverter.
Record t : Type := mk { dpi_x : Z; dpi_y : Z }.
(** [__init__(self, dpi_x=100, dpi_y=100)] *)
Definition init : t := mk 100 100.
End JpegToTiffConverter.

Module JpegImageLoader.
Record t : Type := mk { dpi_x : Z; dpi_y : Z }.
(** [__init__(self)] *)
Definition init : t := mk 100 100.
End JpegImageLoader.

(** The mutable state of a run. *)
Record World : Type := mkWorld {
  loader : JpegImageLoader.t;
  converter : JpegToTiffConverter.t;
  stdout : list string;
  files : gmap string (list TiffPage)
}.

(** The environment: folder listing and the PIL calls. *)
Record Env : Type := mkEnv {
  os_listdir : string -> result (list string);
  Image_open : string -> result Image;
  Image_convert : Image -> string -> result Image;
  Image_save_error : list Image -> string -> string -> Z -> option exn
}.

(** ** The state-and-exception monad

    A raised exception keeps the state reached so far: assignments to
    object fields made before the [raise] are not undone. *)

Definition M (A : Type) : Type := World -> result A * World.

Definition ret {A : Type} (a : A) : M A := fun w => (Ok a, w).

Definition bind {A B : Type} (m : M A) (k : A -> M B) : M B :=
  fun w =>
    match m w with
    | (Ok a, w') => k a w'
    | (Raise e, w') => (Raise e, w')
    end.

Definition raise {A : Type} (e : exn) : M A := fun w => (Raise e, w).

(** A call into the environment that returns or raises. *)
Definition call {A : Type} (r : result A) : M A := fun w => (r, w).

(** [try: body  except classes as e: handler(e)] *)
Definition try_except {A : Type}
    (body : M A) (catches : exc_class -> bool) (handler : exn -> M A) : M A :=
  fun w =>
    match body w with
    | (Ok a, w') => (Ok a, w')
    | (Raise e, w') =>
        if catches (exc_type e) then handler e w' else (Raise e, w')
    end.

Declare Scope py_scope.
Delimit Scope py_scope with py.
Notation "x <- m ;; k" := (bind m (fun x => k))
  (at level 100, m at next level, right associativity) : py_scope.
Notation "m ;; k" := (bind m (fun _ => k))
  (at level 100, right associativity) : py_scope.
Local Open Scope py_scope.

Definition set_loader (l : JpegImageLoader.t) (w : World) : World :=
  mkWorld l (converter w) (stdout w) (files w).
Definition set_converter (c : JpegToTiffConverter.t) (w : World) : World :=
  mkWorld (loader w) c (stdout w) (files w).
Definition set_files (f : gmap string (list TiffPage)) (w : World) : World :=
  mkWorld (loader w) (converter w) (stdout w) f.

Definition log_line (line : string) (w : World) : World :=
  mkWorld (loader w) (converter w) (stdout w ++ [line])%list (files w).

(** [print(line)] *)
Definition print (line : string) : M unit :=
  fun w => (Ok tt, log_line line w).

(** [first.save(fp, save_all=True, append_images=..., dpi=..., compression=...,
    quality=...)]: PIL writes every frame with the same encoder arguments,
    creating or replacing the file at [fp]. *)
Definition Image_save (env : Env) (first : Image) (fp : string)
    (append_images : list Image) (dpi : Z * Z) (compression : string)
    (quality : Z) : M unit :=
  fun w =>
    match Image_save_error env (first :: append_images) fp compression quality with
    | Some e => (Raise e, w)
    | None =>
        (Ok tt,
         set_files
           (<[fp := map (fun im => mkPage im dpi compression quality)
                        (first :: append_images)]> (files w)) w)
    end.

(** ** The interfaces *)

Module ImageCompressor.
(** [compress_image(self, image, compression_level)] *)
Definition compress_image (image : Image) (compression_level : Z) : M unit :=
  raise (Exn NotImplementedError "Subclasses should implement this!").
End ImageCompressor.

Module ImageLoader.
(** [load_images(self, folder_path, color_space)] *)
Definition load_images (folder_path color_space : string)
  : M (list Image * Z * Z) :=
  raise (Exn NotImplementedError "Subclasses should implement this!").
End ImageLoader.

(** ** [JpegToTiffConverter.convert_images_to_tiff] *)

Definition convert_images_to_tiff (env : Env) (image_list : list Image)
    (output_file compression : string) (quality : Z) : M unit :=
  match image_list with
  | [] => ret tt
  | first :: append_images =>
      fun w =>
        (Image_save env first output_file append_images
           (JpegToTiffConverter.dpi_x (converter w),
            JpegToTiffConverter.dpi_y (converter w))
           compression quality ;;
         print (String.append "testImages successfully saved to " output_file)) w
  end.

(** ** [JpegImageLoader.load_images] *)

Definition extensions : list string := [".jpg"; ".jpeg"; ".png"].

(** [filename.lower().endswith(('.jpg', '.jpeg', '.png'))] *)
Definition selected (filename : string) : bool :=
  endswith_any (lower filename) extensions.

(** [dpi_info = img.info.get('dpi', (self.dpi_x, self.dpi_y))]
    [self.dpi_x, self.dpi_y = round(dpi_info[0]), round(dpi_info[1])] *)
Definition resolve_dpi (self : JpegImageLoader.t) (img : Image)
    : JpegImageLoader.t :=
  let dpi_info :=
    match info_dpi img with
    | Some d => d
    | None => (inject_Z (JpegImageLoader.dpi_x self),
               inject_Z (JpegImageLoader.dpi_y self))
    end in
  JpegImageLoader.mk (py_round (fst dpi_info)) (py_round (snd dpi_info)).

Definition read_dpi (img : Image) : M unit :=
  fun w => (Ok tt, set_loader (resolve_dpi (loader w) img) w).

(** The body of the [try] block for one file. *)
Definition load_body (env : Env) (file_path color_space : string)
    (image_list : list Image) : M (list Image) :=
  img <- call (Image_open env file_path) ;;
  read_dpi img ;;
  compressed_img <- call (Image_convert env img color_space) ;;
  ret (image_list ++ [compressed_img])%list.

Definition error_line (filename : string) (e : exn) : string :=
  String.append "Error loading image "
    (String.append filename (String.append ": " (exc_str e))).

(** One iteration of the [for] loop. *)
Definition load_file (env : Env) (folder_path color_space filename : string)
    (image_list : list Image) : M (list Image) :=
  if selected filename then
    let file_path := path_join folder_path filename in
    try_except (load_body env file_path color_space image_list)
      is_OSError
      (fun e => print (error_line filename e) ;; ret image_list)
  else ret image_list.

(** The [for filename in ...] loop over the listing. *)
Fixpoint load_loop (env : Env) (folder_path color_space : string)
    (filenames : list string) (image_list : list Image) : M (list Image) :=
  match filenames with
  | [] => ret image_list
  | filename :: rest =>
      image_list' <- load_file env folder_path color_space filename image_list ;;
      load_loop env folder_path color_space rest image_list'
  end.

Definition load_images (env : Env) (folder_path color_space : string)
    : M (list Image * Z * Z) :=
  filenames <- call (os_listdir env folder_path) ;;
  image_list <- load_loop env folder_path color_space filenames [] ;;
  fun w => (Ok (image_list, JpegImageLoader.dpi_x (loader w),
                JpegImageLoader.dpi_y (loader w)), w).

(** ** [ImageProcessor.process_images] *)

Definition process_images (env : Env)
    (folder_path output_file compression : string) (quality : Z)
    (color_space : string) : M unit :=
  r <- load_images env folder_path color_space ;;
  let '(image_list, dpi_x, dpi_y) := r in
  (fun w => (Ok tt, set_converter
     (JpegToTiffConverter.mk dpi_x (JpegToTiffConverter.dpi_y (converter w))) w)) ;;
  (fun w => (Ok tt, set_converter
     (JpegToTiffConverter.mk (JpegToTiffConverter.dpi_x (converter w)) dpi_y) w)) ;;
  convert_images_to_tiff env image_list output_file compression quality.

(** ** [main] *)

Definition main (env : Env) : M unit :=
  let folder_path := "testImages" in
  let output_file := "output_compressed.tif" in
  let compression := "jpeg" in
  let color_space := "YCbCr" in
  let quality := 30 in
  (fun w => (Ok tt, set_converter JpegToTiffConverter.init w)) ;;
  (fun w => (Ok tt, set_loader JpegImageLoader.init w)) ;;
  process_images env folder_path output_file compression quality color_space ;;
  print (String.append "Conversion completed. Output saved as "
           (String.append output_file ".")).

(** ** Sample folders

    [testImages]: [a.jpg] carries 300 DPI, [b.png] has no DPI metadata,
    [c.jpeg] is corrupt and [notes.txt] is not an image.
    [empty] has no entries and [docs] no image.
    [scans]: [page1.JPG] has a readable header with 300 DPI but its data
    is truncated, so that it opens and fails when it is converted.
    [huge]: [big.png] is refused by PIL's decompression-bomb check.
    Any other folder does not exist. *)

Definition img_a : Image := mkImage "testImages/a.jpg" "RGB" (Some (300 # 1, 300 # 1)).
Definition img_b : Image := mkImage "testImages/b.png" "RGBA" None.
Definition img_page1 : Image := mkImage "scans/page1.JPG" "RGB" (Some (300 # 1, 300 # 1)).

Definition no_such_file : exn :=
  Exn FileNotFoundError "[Errno 2] No such file or directory".

Definition sample_listdir (folder : string) : result (list string) :=
  if String.eqb folder "testImages" then Ok ["a.jpg"; "notes.txt"; "b.png"; "c.jpeg"]
  else if String.eqb folder "empty" then Ok []
  else if String.eqb folder "docs" then Ok ["notes.txt"; "old.bmp"]
  else if String.eqb folder "scans" then Ok ["page1.JPG"]
  else if String.eqb folder "huge" then Ok ["big.png"; "a.jpg"]
  else Raise no_such_file.

Definition sample_open (path : string) : result Image :=
  if String.eqb path "testImages/a.jpg" then Ok img_a
  else if String.eqb path "testImages/b.png" then Ok img_b
  else if String.eqb path "testImages/c.jpeg"
  then Raise (Exn UnidentifiedImageError "cannot identify image file")
  else if String.eqb path "scans/page1.JPG" then Ok img_page1
  else if String.eqb path "huge/big.png"
  then Raise (Exn DecompressionBombError
                "Image size exceeds limit, could be decompression bomb DOS attack.")
  else Raise no_such_file.

Definition sample_convert (img : Image) (color_space : string) : result Image :=
  if String.eqb (im_source img) "scans/page1.JPG"
  then Raise (Exn OSError "image file is truncated")
  else if (String.eqb color_space "RGB" || String.eqb color_space "YCbCr")%bool
  then Ok (mkImage (im_source img) color_space (info_dpi img))
  else Raise (Exn ValueError "conversion not supported").

Definition sample_env : Env :=
  mkEnv sample_listdir sample_open sample_convert (fun _ _ _ _ => None).

(** The same folders when [c.jpeg] has a readable header. *)
Definition repaired_env : Env :=
  mkEnv sample_listdir
    (fun path =>
       if String.eqb path "testImages/c.jpeg"
       then Ok (mkImage "testImages/c.jpeg" "RGB" None)
       else sample_open path)
    sample_convert (fun _ _ _ _ => None).

(** The same folders when [page1.JPG] cannot even be opened. *)
Definition truncated : exn := Exn OSError "image file is truncated".

Definition unreadable_env : Env :=
  mkEnv sample_listdir
    (fun path =>
       if String.eqb path "scans/page1.JPG" then Raise truncated
       else sample_open path)
    sample_convert (fun _ _ _ _ => None).

(** The state in which [main] starts the pipeline. *)
Definition world0 : World :=
  mkWorld JpegImageLoader.init JpegToTiffConverter.init [] ∅.

(** ** Vocabulary of the specification *)

(** The image a matching file decodes to, if it does. *)
Definition decoded (env : Env) (folder_path filename : string) : option Image :=
  if selected filename then
    match Image_open env (path_join folder_path filename) with
    | Ok img => Some img
    | Raise _ => None
    end
  else None.

(** The decoded image of a file that is loaded: it decodes and converts,
    so that its page is in the returned sequence. *)
Definition loaded (env : Env) (folder_path color_space filename : string)
    : option Image :=
  match decoded env folder_path filename with
  | Some img =>
      match Image_convert env img color_space with
      | Ok _ => Some img
      | Raise _ => None
      end
  | None => None
  end.

(** The DPI metadata of the last file of the listing whose image, as
    chosen by [pick], has some. *)
Fixpoint last_metadata (pick : string -> option Image) (filenames : list string)
    : option (Q * Q) :=
  match filenames with
  | [] => None
  | filename :: rest =>
      match last_metadata pick rest with
      | Some d => Some d
      | None =>
          match pick filename with
          | Some img => info_dpi img
          | None => None
          end
      end
  end.

(** "The value set by the last image that had metadata, or [start] if
    none did." *)
Definition last_wins (pick : string -> option Image) (filenames : list string)
    (start : JpegImageLoader.t) : JpegImageLoader.t :=
  match last_metadata pick filenames with
  | Some d => JpegImageLoader.mk (py_round (fst d)) (py_round (snd d))
  | None => start
  end.


(** Every matching file of the listing decodes and converts. *)
Definition all_decode (env : Env) (folder_path color_space : string)
    (filenames : list string) : Prop :=
  forall filename, In filename filenames -> selected filename = true ->
    exists img page,
      Image_open env (path_join folder_path filename) = Ok img /\
      Image_convert env img color_space = Ok page.

(** [pages] holds one page per matching file, in the order of the listing. *)
Definition page_per_file (env : Env) (folder_path color_space : string)
    (filenames : list string) (pages : list Image) : Prop :=
  Forall2
    (fun filename page =>
       exists img,
         Image_open env (path_join folder_path filename) = Ok img /\
         Image_convert env img color_space = Ok page)
    (List.filter selected filenames) pages.

(** The sample folders when the output cannot be written. *)
Definition permission_denied : exn :=
  Exn PermissionError "[Errno 13] Permission denied".

Definition readonly_env : Env :=
  mkEnv sample_listdir sample_open sample_convert (fun _ _ _ _ => Some permission_denied).

(** A machine without any of the folders. *)
Definition bare_env : Env :=
  mkEnv (fun _ => Raise no_such_file) (fun _ => Raise no_such_file)
    sample_convert (fun _ _ _ _ => None).

(** A state in which an older TIFF is on disk and both objects have been
    used before. *)
Definition used_world : World :=
  mkWorld (JpegImageLoader.mk 72 72) (JpegToTiffConverter.mk 72 72)
    ["testImages successfully saved to archive.tif"]
    (<["archive.tif" := [mkPage img_b (72, 72) "raw" 100]]> ∅).

(** ** What each entry of a listing contributes *)

(** The page a file adds to the returned sequence, if it adds one. *)
Definition page_of (env : Env) (folder_path color_space filename : string)
    : option Image :=
  match decoded env folder_path filename with
  | Some img =>
      match Image_convert env img color_space with
      | Ok page => Some page
      | Raise _ => None
      end
  | None => None
  end.

(** The exception the body of the [try] raises for a matching file. *)
Definition failure_of (env : Env) (folder_path color_space filename : string)
    : option exn :=
  if selected filename then
    match Image_open env (path_join folder_path filename) with
    | Raise e => Some e
    | Ok img =>
        match Image_convert env img color_space with
        | Raise e => Some e
        | Ok _ => None
        end
    end
  else None.

(** The line a file adds to the console, if it adds one. *)
Definition line_of (env : Env) (folder_path color_space filename : string)
    : option string :=
  match failure_of env folder_path color_space filename with
  | Some e => if is_OSError (exc_type e) then Some (error_line filename e) else None
  | None => None
  end.

(** The exception with which a file ends the whole loop, if it does. *)
Definition fatal_of (env : Env) (folder_path color_space filename : string)
    : option exn :=
  match failure_of env folder_path color_space filename with
  | Some e => if is_OSError (exc_type e) then None else Some e
  | None => None
  end.

(** The values [f] gives on a list, in order. *)
Fixpoint collect {A B : Type} (f : A -> option B) (l : list A) : list B :=
  match l with
  | [] => []
  | x :: rest =>
      match f x with
      | Some y => y :: collect f rest
      | None => collect f rest
      end
  end.

(** The last line [main] prints. *)
Definition completion_line : string :=
  "Conversion completed. Output saved as output_compressed.tif.".

(** ** Sentences of the specification, read literally *)


(** "The resolved DPI of the batch is the value set by the last
    successfully loaded image that had metadata, or the default." *)
Definition last_loaded_wins (env : Env) (folder_path color_space : string)
    (w : World) : Prop :=
  forall filenames image_list dpi_x dpi_y w',
    os_listdir env folder_path = Ok filenames ->
    load_images env folder_path color_space w = (Ok (image_list, dpi_x, dpi_y), w') ->
    JpegImageLoader.mk dpi_x dpi_y =
      last_wins (loaded env folder_path color_space) filenames JpegImageLoader.init.

(** "A selected file whose decode fails is reported, skipped, and the
    batch continues." *)
Definition decode_failure_skipped (env : Env)
    (folder_path color_space filename : string) : Prop :=
  forall e rest image_list w,
    selected filename = true ->
    Image_open env (path_join folder_path filename) = Raise e ->
    load_file env folder_path color_space filename image_list w =
      (Ok image_list, log_line (error_line filename e) w) /\
    load_loop env folder_path color_space (filename :: rest) image_list w =
      load_loop env folder_path color_space rest image_list
        (log_line (error_line filename e) w).

(** "A failure raised during the conversion is handled identically to a
    decode failure: the file is skipped with a logged error and the batch
    continues", that is, what [decode_failure_skipped] says of a decode
    failure. *)
Definition convert_failure_skipped (env : Env)
    (folder_path color_space filename : string) : Prop :=
  forall img e rest image_list w,
    selected filename = true ->
    Image_open env (path_join folder_path filename) = Ok img ->
    Image_convert env img color_space = Raise e ->
    load_file env folder_path color_space filename image_list w =
      (Ok image_list, log_line (error_line filename e) w) /\
    load_loop env folder_path color_space (filename :: rest) image_list w =
      load_loop env folder_path color_space rest image_list
        (log_line (error_line filename e) w).

(** ** Names of image files, without [str.lower] *)





(** * Properties *)

(** ** Numbers and strings *)

Lemma py_round_inject_Z (z : Z) : py_round (inject_Z z) = z.
Proof.
  unfold py_round. rewrite Qfloor_Z.
  assert (E : (inject_Z z - inject_Z z == 0)%Q) by ring.
  rewrite E. reflexivity.
Qed.

Lemma resolve_dpi_metadata (self : JpegImageLoader.t) (img : Image) (d : Q * Q) :
  info_dpi img = Some d ->
  resolve_dpi self img = JpegImageLoader.mk (py_round (fst d)) (py_round (snd d)).
Proof. intros E. unfold resolve_dpi. rewrite E. reflexivity. Qed.

Lemma resolve_dpi_no_metadata (self : JpegImageLoader.t) (img : Image) :
  info_dpi img = None -> resolve_dpi self img = self.
Proof.
  intros E. unfold resolve_dpi. rewrite E. cbn [fst snd].
  rewrite !py_round_inject_Z. destruct self; reflexivity.
Qed.



(** ** One iteration of the loader's loop *)

Section OneFile.
Variable env : Env.
Variables folder_path color_space : string.

Local Abbreviation step := (load_file env folder_path color_space).

Lemma load_file_not_selected filename image_list w :
  selected filename = false ->
  step filename image_list w = (Ok image_list, w).
Proof. intros E. unfold load_file. rewrite E. reflexivity. Qed.

Lemma load_file_loaded filename img page image_list w :
  selected filename = true ->
  Image_open env (path_join folder_path filename) = Ok img ->
  Image_convert env img color_space = Ok page ->
  step filename image_list w =
    (Ok (image_list ++ [page])%list, set_loader (resolve_dpi (loader w) img) w).
Proof.
  intros S O C. unfold load_file. rewrite S.
  unfold try_except, load_body, bind, call, read_dpi, ret.
  rewrite O, C. reflexivity.
Qed.

Lemma load_file_open_raise filename e image_list w :
  selected filename = true ->
  Image_open env (path_join folder_path filename) = Raise e ->
  step filename image_list w =
    if is_OSError (exc_type e)
    then (Ok image_list, log_line (error_line filename e) w)
    else (Raise e, w).
Proof.
  intros S O. unfold load_file. rewrite S.
  unfold try_except, load_body, bind, call. rewrite O.
  destruct (is_OSError (exc_type e)); reflexivity.
Qed.

Lemma load_file_convert_raise filename img e image_list w :
  selected filename = true ->
  Image_open env (path_join folder_path filename) = Ok img ->
  Image_convert env img color_space = Raise e ->
  step filename image_list w =
    if is_OSError (exc_type e)
    then (Ok image_list,
          log_line (error_line filename e)
            (set_loader (resolve_dpi (loader w) img) w))
    else (Raise e, set_loader (resolve_dpi (loader w) img) w).
Proof.
  intros S O C. unfold load_file. rewrite S.
  unfold try_except, load_body, bind, call, read_dpi. rewrite O, C.
  destruct (is_OSError (exc_type e)); reflexivity.
Qed.

(** The cases of one iteration. *)
Lemma classify filename :
  selected filename = false \/
  (selected filename = true /\ exists e,
     Image_open env (path_join folder_path filename) = Raise e) \/
  (selected filename = true /\ exists img e,
     Image_open env (path_join folder_path filename) = Ok img /\
     Image_convert env img color_space = Raise e) \/
  (selected filename = true /\ exists img page,
     Image_open env (path_join folder_path filename) = Ok img /\
     Image_convert env img color_space = Ok page).
Proof.
  destruct (selected filename); [right | left; reflexivity].
  destruct (Image_open env (path_join folder_path filename)) as [img|e].
  - right. destruct (Image_convert env img color_space) as [page|e] eqn:C.
    + right. eauto.
    + left. eauto.
  - left. eauto.
Qed.

(** Loading touches neither the converter nor the files. *)
Lemma load_file_frame filename image_list w :
  converter (snd (step filename image_list w)) = converter w /\
  files (snd (step filename image_list w)) = files w.
Proof.
  destruct (classify filename)
    as [S|[(S & e & O)|[(S & img & e & O & C)|(S & img & page & O & C)]]].
  - rewrite load_file_not_selected by assumption. auto.
  - rewrite (load_file_open_raise _ e) by assumption.
    destruct (is_OSError (exc_type e)); auto.
  - rewrite (load_file_convert_raise _ img e) by assumption.
    destruct (is_OSError (exc_type e)); auto.
  - rewrite (load_file_loaded _ img page) by assumption. auto.
Qed.

(** The loader's DPI after one iteration, whatever its outcome. *)
Lemma load_file_dpi filename image_list w :
  loader (snd (step filename image_list w)) =
    match decoded env folder_path filename with
    | Some img => resolve_dpi (loader w) img
    | None => loader w
    end.
Proof.
  unfold decoded.
  destruct (classify filename)
    as [S|[(S & e & O)|[(S & img & e & O & C)|(S & img & page & O & C)]]];
    rewrite S; try rewrite O.
  - rewrite load_file_not_selected by assumption. reflexivity.
  - rewrite (load_file_open_raise _ e) by assumption.
    destruct (is_OSError (exc_type e)); reflexivity.
  - rewrite (load_file_convert_raise _ img e) by assumption.
    destruct (is_OSError (exc_type e)); reflexivity.
  - rewrite (load_file_loaded _ img page) by assumption. reflexivity.
Qed.

End OneFile.

(** ** The loader's loop *)

Lemma last_metadata_none (pick : string -> option Image) (filenames : list string) :
  (forall filename img, In filename filenames ->
     pick filename = Some img -> info_dpi img = None) ->
  last_metadata pick filenames = None.
Proof.
  induction filenames as [|f rest IH]; intros H; cbn [last_metadata].
  - reflexivity.
  - rewrite IH by (intros g i Hg; apply H; right; exact Hg).
    destruct (pick f) as [img|] eqn:P; [|reflexivity].
    apply (H f img); [left; reflexivity | exact P].
Qed.

Lemma last_metadata_last (pick : string -> option Image)
    (before after : list string) (filename : string) (img : Image) (d : Q * Q) :
  pick filename = Some img -> info_dpi img = Some d ->
  (forall g i, In g after -> pick g = Some i -> info_dpi i = None) ->
  last_metadata pick (before ++ filename :: after) = Some d.
Proof.
  intros P D N. induction before as [|b before IH]; cbn [app last_metadata].
  - rewrite (last_metadata_none pick after N), P. exact D.
  - rewrite IH. reflexivity.
Qed.

Section Loop.
Variable env : Env.
Variables folder_path color_space : string.

Local Abbreviation step := (load_file env folder_path color_space).
Local Abbreviation loop := (load_loop env folder_path color_space).

Lemma load_loop_cons filename rest image_list w :
  loop (filename :: rest) image_list w =
    match step filename image_list w with
    | (Ok image_list', w') => loop rest image_list' w'
    | (Raise e, w') => (Raise e, w')
    end.
Proof. reflexivity. Qed.

Lemma load_loop_frame filenames image_list w :
  converter (snd (loop filenames image_list w)) = converter w /\
  files (snd (loop filenames image_list w)) = files w.
Proof.
  revert image_list w. induction filenames as [|f rest IH]; intros image_list w.
  - split; reflexivity.
  - rewrite load_loop_cons.
    destruct (load_file_frame env folder_path color_space f image_list w) as [Hc Hf].
    destruct (step f image_list w) as [[l|e] w1]; cbn [snd] in *.
    + destruct (IH l w1) as [Hc' Hf']. split; congruence.
    + split; assumption.
Qed.

(** Last decoded image with metadata wins. *)
Lemma load_loop_dpi filenames image_list w image_list' w' :
  loop filenames image_list w = (Ok image_list', w') ->
  loader w' = last_wins (decoded env folder_path) filenames (loader w).
Proof.
  revert image_list w. induction filenames as [|f rest IH]; intros image_list w H.
  - injection H as _ <-. reflexivity.
  - rewrite load_loop_cons in H.
    pose proof (load_file_dpi env folder_path color_space f image_list w) as D.
    destruct (step f image_list w) as [[l|e] w1]; [|discriminate H].
    cbn [snd] in D. apply IH in H. rewrite H, D.
    unfold last_wins. cbn [last_metadata].
    destruct (last_metadata (decoded env folder_path) rest); [reflexivity|].
    destruct (decoded env folder_path f) as [img|]; [|reflexivity].
    destruct (info_dpi img) as [d|] eqn:E.
    + apply resolve_dpi_metadata. exact E.
    + apply resolve_dpi_no_metadata. exact E.
Qed.

(** Entries that do not match are not looked at. *)
Lemma load_loop_filter filenames image_list w :
  loop filenames image_list w = loop (List.filter selected filenames) image_list w.
Proof.
  revert image_list w. induction filenames as [|f rest IH]; intros image_list w.
  - reflexivity.
  - cbn [List.filter]. destruct (selected f) eqn:S.
    + rewrite !load_loop_cons.
      destruct (step f image_list w) as [[l|e] w1]; [apply IH | reflexivity].
    + rewrite load_loop_cons, load_file_not_selected by exact S. apply IH.
Qed.

Lemma load_loop_none_selected filenames image_list w :
  (forall filename, In filename filenames -> selected filename = false) ->
  loop filenames image_list w = (Ok image_list, w).
Proof.
  intros H. rewrite load_loop_filter.
  replace (List.filter selected filenames) with (@nil string); [reflexivity|].
  symmetry. induction filenames as [|f rest IH]; [reflexivity|].
  cbn [List.filter]. rewrite (H f) by (left; reflexivity).
  apply IH. intros g Hg. apply H. right. exact Hg.
Qed.

(** When every matching file decodes and converts, the loop appends
    their pages in order and prints nothing. *)
Lemma load_loop_all_decode filenames image_list w :
  all_decode env folder_path color_space filenames ->
  exists pages w',
    loop filenames image_list w = (Ok (image_list ++ pages)%list, w') /\
    page_per_file env folder_path color_space filenames pages /\
    stdout w' = stdout w.
Proof.
  unfold page_per_file.
  revert image_list w. induction filenames as [|f rest IH]; intros image_list w A.
  - exists [], w. rewrite app_nil_r. repeat split. constructor.
  - assert (A' : all_decode env folder_path color_space rest)
      by (intros g Hg; apply A; right; exact Hg).
    rewrite load_loop_cons. cbn [List.filter].
    destruct (selected f) eqn:S.
    + destruct (A f (or_introl eq_refl) S) as (img & page & O & C).
      rewrite (load_file_loaded _ _ _ _ img page) by assumption.
      destruct (IH (image_list ++ [page])%list
                   (set_loader (resolve_dpi (loader w) img) w) A')
        as (pages & w' & E & P & L).
      exists (page :: pages), w'. rewrite E, <- app_assoc. repeat split.
      * constructor; [exists img; split; assumption | exact P].
      * exact L.
    + rewrite load_file_not_selected by exact S.
      destruct (IH image_list w A') as (pages & w' & E & P & L).
      exists pages, w'. repeat split; assumption.
Qed.

End Loop.

(** ** [load_images], [convert_images_to_tiff] and [process_images] *)

Lemma load_images_listing env folder_path color_space filenames w :
  os_listdir env folder_path = Ok filenames ->
  load_images env folder_path color_space w =
    match load_loop env folder_path color_space filenames [] w with
    | (Ok image_list, w') =>
        (Ok (image_list, JpegImageLoader.dpi_x (loader w'),
             JpegImageLoader.dpi_y (loader w')), w')
    | (Raise e, w') => (Raise e, w')
    end.
Proof.
  intros L. unfold load_images, bind, call. rewrite L.
  destruct (load_loop env folder_path color_space filenames [] w) as [[l|e] w'];
    reflexivity.
Qed.

Lemma load_images_listdir_raise env folder_path color_space e w :
  os_listdir env folder_path = Raise e ->
  load_images env folder_path color_space w = (Raise e, w).
Proof. intros L. unfold load_images, bind, call. rewrite L. reflexivity. Qed.

Lemma load_images_returns env folder_path color_space w image_list dpi_x dpi_y w' :
  load_images env folder_path color_space w = (Ok (image_list, dpi_x, dpi_y), w') ->
  exists filenames,
    os_listdir env folder_path = Ok filenames /\
    load_loop env folder_path color_space filenames [] w = (Ok image_list, w') /\
    loader w' = JpegImageLoader.mk dpi_x dpi_y.
Proof.
  intros H. destruct (os_listdir env folder_path) as [filenames|e] eqn:L.
  - rewrite (load_images_listing _ _ _ filenames) in H by exact L.
    exists filenames. split; [reflexivity|].
    destruct (load_loop env folder_path color_space filenames [] w) as [[l|e] w1];
      [|discriminate H].
    injection H as -> <- <- <-. split; [reflexivity|].
    destruct (loader w1); reflexivity.
  - rewrite (load_images_listdir_raise _ _ _ e) in H by exact L. discriminate H.
Qed.

Lemma process_images_unfold env folder_path output_file compression quality
    color_space w :
  process_images env folder_path output_file compression quality color_space w =
    match load_images env folder_path color_space w with
    | (Ok (image_list, dpi_x, dpi_y), w') =>
        convert_images_to_tiff env image_list output_file compression quality
          (set_converter (JpegToTiffConverter.mk dpi_x dpi_y) w')
    | (Raise e, w') => (Raise e, w')
    end.
Proof.
  unfold process_images, bind.
  destruct (load_images env folder_path color_space w) as [[[[l x] y]|e] w'];
    reflexivity.
Qed.

Lemma convert_images_to_tiff_saved env first append_images output_file
    compression quality w :
  Image_save_error env (first :: append_images) output_file compression quality
    = None ->
  convert_images_to_tiff env (first :: append_images) output_file compression
    quality w =
    (Ok tt,
     log_line (String.append "testImages successfully saved to " output_file)
       (set_files
          (<[output_file :=
               map (fun im =>
                      mkPage im (JpegToTiffConverter.dpi_x (converter w),
                                 JpegToTiffConverter.dpi_y (converter w))
                        compression quality)
                   (first :: append_images)]> (files w)) w)).
Proof.
  intros E. unfold convert_images_to_tiff, bind, Image_save, print.
  rewrite E. reflexivity.
Qed.

Lemma convert_images_to_tiff_converter env image_list output_file compression
    quality w :
  converter (snd (convert_images_to_tiff env image_list output_file compression
                    quality w)) = converter w.
Proof.
  destruct image_list as [|first rest]; [reflexivity|].
  unfold convert_images_to_tiff, bind, Image_save, print.
  destruct (Image_save_error env (first :: rest) output_file compression quality);
    reflexivity.
Qed.

(** * The claims *)

(** ** C1: one page per loaded image, in enumeration order *)




(** ** C2: selection by extension *)








(** ** C3: sequential DPI resolution *)

(** C3, read literally, fails when a file opens, carries DPI metadata and
    then fails to convert: it is skipped (nothing is loaded), yet the batch
    DPI is the one it set. *)
Lemma dpi_taken_from_skipped_file : ~ last_loaded_wins sample_env "scans" "RGB" world0.
Proof.
  intros H.
  specialize (H ["page1.JPG"] [] 300 300
                (snd (load_images sample_env "scans" "RGB" world0))
                eq_refl eq_refl).
  vm_compute in H. discriminate H.
Qed.

(** C3 (amended): in [load_images] on a new loader the running DPI starts
    at (100, 100); each decoded image with DPI metadata overwrites it with
    the rounded metadata and one without metadata leaves it as it is; the
    DPI returned for the batch is the value set by the last decoded image
    that had metadata, whether or not that image was then converted, or
    (100, 100) if none had. *)
Theorem dpi_last_decoded_wins env folder_path color_space filenames image_list
    dpi_x dpi_y w w' :
  os_listdir env folder_path = Ok filenames ->
  load_images env folder_path color_space (set_loader JpegImageLoader.init w)
    = (Ok (image_list, dpi_x, dpi_y), w') ->
  (forall filename img l w0,
     decoded env folder_path filename = Some img ->
     loader (snd (load_file env folder_path color_space filename l w0)) =
       match info_dpi img with
       | Some d => JpegImageLoader.mk (py_round (fst d)) (py_round (snd d))
       | None => loader w0
       end) /\
  JpegImageLoader.mk dpi_x dpi_y =
    last_wins (decoded env folder_path) filenames (JpegImageLoader.mk 100 100) /\
  (forall before filename after img d,
     filenames = (before ++ filename :: after)%list ->
     decoded env folder_path filename = Some img ->
     info_dpi img = Some d ->
     (forall g i, In g after -> decoded env folder_path g = Some i ->
                  info_dpi i = None) ->
     (dpi_x, dpi_y) = (py_round (fst d), py_round (snd d))) /\
  ((forall g i, In g filenames -> decoded env folder_path g = Some i ->
                info_dpi i = None) ->
   (dpi_x, dpi_y) = (100, 100)).
Proof.
  intros L H. apply load_images_returns in H as (fs & L' & E & D).
  rewrite L in L'. injection L' as <-.
  pose proof (load_loop_dpi _ _ _ _ _ _ _ _ E) as W.
  cbn [loader set_loader] in W. rewrite D in W.
  split; [|split; [exact W|split]].
  - intros filename img l w0 P. rewrite load_file_dpi, P.
    destruct (info_dpi img) as [d|] eqn:I.
    + apply resolve_dpi_metadata. exact I.
    + apply resolve_dpi_no_metadata. exact I.
  - intros before filename after img d -> P I N. unfold last_wins in W.
    rewrite (last_metadata_last _ before after filename img d P I N) in W.
    injection W as -> ->. reflexivity.
  - intros N. unfold last_wins in W.
    rewrite (last_metadata_none _ _ N) in W. injection W as -> ->. reflexivity.
Qed.

(** C3, witness: in the sample folder [a.jpg] is the last decoded image
    with metadata. *)
Lemma dpi_last_decoded_wins_witness :
  os_listdir sample_env "testImages" = Ok ["a.jpg"; "notes.txt"; "b.png"; "c.jpeg"] /\
  fst (load_images sample_env "testImages" "YCbCr"
         (set_loader JpegImageLoader.init world0)) =
    Ok ([mkImage "testImages/a.jpg" "YCbCr" (Some (300 # 1, 300 # 1));
         mkImage "testImages/b.png" "YCbCr" None], 300, 300) /\
  (300, 300) = (py_round (300 # 1), py_round (300 # 1)).
Proof.
  split; [reflexivity|]. split; [reflexivity|].
  refine (proj1 (proj2 (proj2
    (dpi_last_decoded_wins sample_env "testImages" "YCbCr"
       ["a.jpg"; "notes.txt"; "b.png"; "c.jpeg"] _ 300 300 world0
       (snd (load_images sample_env "testImages" "YCbCr"
               (set_loader JpegImageLoader.init world0)))
       eq_refl eq_refl)))
    [] "a.jpg" ["notes.txt"; "b.png"; "c.jpeg"] img_a (300 # 1, 300 # 1)
    eq_refl eq_refl eq_refl _).
  intros g i [<-|[<-|[<-|[]]]] P; vm_compute in P;
    try discriminate P; injection P as <-; reflexivity.
Defined.

(** ** C4: the empty batch *)

(** C4: [convert_images_to_tiff] on an empty sequence returns without
    touching the state, and for a folder without matching files the whole
    of [process_images] returns normally, writes no file and prints
    nothing: only the converter's DPI fields are assigned. *)
Theorem empty_batch_is_noop env folder_path output_file compression quality
    color_space filenames w :
  os_listdir env folder_path = Ok filenames ->
  (forall filename, In filename filenames -> selected filename = false) ->
  convert_images_to_tiff env [] output_file compression quality w = (Ok tt, w) /\
  process_images env folder_path output_file compression quality color_space w =
    (Ok tt,
     set_converter
       (JpegToTiffConverter.mk (JpegImageLoader.dpi_x (loader w))
                               (JpegImageLoader.dpi_y (loader w))) w) /\
  files (snd (process_images env folder_path output_file compression quality
                color_space w)) = files w /\
  stdout (snd (process_images env folder_path output_file compression quality
                 color_space w)) = stdout w.
Proof.
  intros L N. split; [reflexivity|].
  assert (E : process_images env folder_path output_file compression quality
                color_space w =
              (Ok tt,
               set_converter
                 (JpegToTiffConverter.mk (JpegImageLoader.dpi_x (loader w))
                    (JpegImageLoader.dpi_y (loader w))) w)).
  { rewrite process_images_unfold, (load_images_listing _ _ _ filenames) by exact L.
    rewrite load_loop_none_selected by exact N. reflexivity. }
  rewrite E. repeat split.
Qed.

(** C4, witness: the sample folders [empty] and [docs]. *)
Lemma empty_batch_is_noop_witness :
  process_images sample_env "empty" "output_compressed.tif" "jpeg" 30 "YCbCr" world0
    = (Ok tt, world0) /\
  process_images sample_env "docs" "output_compressed.tif" "jpeg" 30 "YCbCr" world0
    = (Ok tt, world0).
Proof.
  split.
  - refine (proj1 (proj2
      (empty_batch_is_noop sample_env "empty" "output_compressed.tif" "jpeg" 30
         "YCbCr" [] world0 eq_refl _))).
    intros f [].
  - refine (proj1 (proj2
      (empty_batch_is_noop sample_env "docs" "output_compressed.tif" "jpeg" 30
         "YCbCr" ["notes.txt"; "old.bmp"] world0 eq_refl _))).
    intros f [<-|[<-|[]]]; reflexivity.
Defined.

(** ** C5: no matching file *)



(** ** C6: a decode failure is skipped *)

(** C6, read literally, fails for a decode failure that is not an
    [OSError]: the decompression-bomb refusal of [big.png] leaves
    [load_file] with the exception instead of a skip. *)
Lemma decode_failure_can_abort :
  ~ decode_failure_skipped sample_env "huge" "RGB" "big.png".
Proof.
  intros H.
  destruct (H (Exn DecompressionBombError
                 "Image size exceeds limit, could be decompression bomb DOS attack.")
              ["a.jpg"] [] world0 eq_refl eq_refl) as [E _].
  vm_compute in E. discriminate E.
Qed.

(** C6 (amended): for every selected file whose decode fails with an
    [IOError]/[OSError], the iteration prints the line
    "Error loading image <name>: <error>", adds no image, changes nothing
    else, and the loop goes on with the remaining files. *)
Theorem oserror_decode_failure_skipped env folder_path color_space filename e rest
    image_list w :
  selected filename = true ->
  Image_open env (path_join folder_path filename) = Raise e ->
  is_OSError (exc_type e) = true ->
  load_file env folder_path color_space filename image_list w =
    (Ok image_list, log_line (error_line filename e) w) /\
  load_loop env folder_path color_space (filename :: rest) image_list w =
    load_loop env folder_path color_space rest image_list
      (log_line (error_line filename e) w) /\
  stdout (log_line (error_line filename e) w) =
    (stdout w ++
     [String.append "Error loading image "
        (String.append filename (String.append ": " (exc_str e)))])%list /\
  loader (log_line (error_line filename e) w) = loader w /\
  converter (log_line (error_line filename e) w) = converter w /\
  files (log_line (error_line filename e) w) = files w.
Proof.
  intros S O C.
  assert (E : load_file env folder_path color_space filename image_list w =
              (Ok image_list, log_line (error_line filename e) w))
    by (rewrite (load_file_open_raise _ _ _ _ e), C by assumption; reflexivity).
  split; [exact E|]. split; [|repeat split].
  rewrite load_loop_cons, E. reflexivity.
Qed.

(** C6, witness: the corrupt [c.jpeg] of the sample folder. *)
Lemma oserror_decode_failure_skipped_witness :
  selected "c.jpeg" = true /\
  Image_open sample_env (path_join "testImages" "c.jpeg") =
    Raise (Exn UnidentifiedImageError "cannot identify image file") /\
  load_file sample_env "testImages" "RGB" "c.jpeg" [img_a] world0 =
    (Ok [img_a],
     mkWorld JpegImageLoader.init JpegToTiffConverter.init
       ["Error loading image c.jpeg: cannot identify image file"] ∅).
Proof.
  split; [reflexivity|]. split; [reflexivity|].
  apply (proj1 (oserror_decode_failure_skipped sample_env "testImages" "RGB" "c.jpeg"
                  (Exn UnidentifiedImageError "cannot identify image file")
                  [] [img_a] world0 eq_refl eq_refl eq_refl)).
Defined.

(** ** C7: a conversion failure takes the same path *)

(** C7, read literally, fails twice.  A conversion failure that is not an
    [OSError] is not skipped: asking for a colour space PIL does not know
    raises [ValueError] out of the loop.  And a conversion failure that is
    an [OSError] is skipped, but not as a decode failure is: the DPI of
    the truncated [page1.JPG] has been read and stays. *)
Lemma convert_failure_not_like_decode_failure :
  ~ convert_failure_skipped sample_env "testImages" "XYZ" "a.jpg" /\
  ~ convert_failure_skipped sample_env "scans" "RGB" "page1.JPG".
Proof.
  split; intros H.
  - destruct (H img_a (Exn ValueError "conversion not supported") ["b.png"] []
                world0 eq_refl eq_refl eq_refl) as [E _].
    vm_compute in E. discriminate E.
  - destruct (H img_page1 truncated [] [] world0 eq_refl eq_refl eq_refl) as [E _].
    vm_compute in E. discriminate E.
Qed.

(** C7 (amended): a failure raised during the conversion of a decoded image
    is decided by the same [except] clause as a decode failure, with no
    handling of its own: the iteration ends exactly as it does when the
    decode itself fails with the same exception, except that the image's
    DPI has been read before.  So a conversion failure that is an
    [IOError]/[OSError] is logged with the same line, the file is skipped
    and the loop continues, with the loader's DPI already taken from the
    image; and a conversion failure of another class leaves the loop, as a
    decode failure of that class does. *)
Theorem convert_failure_like_decode_failure env env' folder_path color_space
    filename img e image_list w :
  selected filename = true ->
  Image_open env (path_join folder_path filename) = Ok img ->
  Image_convert env img color_space = Raise e ->
  Image_open env' (path_join folder_path filename) = Raise e ->
  load_file env folder_path color_space filename image_list w =
    load_file env' folder_path color_space filename image_list
      (set_loader (resolve_dpi (loader w) img) w) /\
  (is_OSError (exc_type e) = true ->
   load_file env folder_path color_space filename image_list w =
     (Ok image_list,
      log_line (error_line filename e)
        (set_loader (resolve_dpi (loader w) img) w)) /\
   forall rest,
     load_loop env folder_path color_space (filename :: rest) image_list w =
       load_loop env folder_path color_space rest image_list
         (log_line (error_line filename e)
            (set_loader (resolve_dpi (loader w) img) w))) /\
  (is_OSError (exc_type e) = false ->
   forall rest,
     load_loop env folder_path color_space (filename :: rest) image_list w =
       (Raise e, set_loader (resolve_dpi (loader w) img) w) /\
     load_loop env' folder_path color_space (filename :: rest) image_list w =
       (Raise e, w)).
Proof.
  intros S O C O'.
  pose proof (load_file_convert_raise env folder_path color_space filename img e
                image_list w S O C) as E.
  split; [|split].
  - rewrite E, (load_file_open_raise env' _ _ _ e) by assumption. reflexivity.
  - intros T. rewrite T in E. split; [exact E|].
    intros rest. rewrite load_loop_cons, E. reflexivity.
  - intros T rest. rewrite T in E. rewrite !load_loop_cons, E.
    rewrite (load_file_open_raise env' _ _ _ e), T by assumption.
    split; reflexivity.
Qed.

(** C7, witness: the truncated [page1.JPG], against the same file when it
    cannot be opened. *)
Lemma convert_failure_like_decode_failure_witness :
  load_file sample_env "scans" "RGB" "page1.JPG" [] world0 =
    load_file unreadable_env "scans" "RGB" "page1.JPG" []
      (set_loader (JpegImageLoader.mk 300 300) world0) /\
  load_file sample_env "scans" "RGB" "page1.JPG" [] world0 =
    (Ok [],
     mkWorld (JpegImageLoader.mk 300 300) JpegToTiffConverter.init
       ["Error loading image page1.JPG: image file is truncated"] ∅).
Proof.
  pose proof (convert_failure_like_decode_failure sample_env unreadable_env
                "scans" "RGB" "page1.JPG" img_page1 truncated [] world0
                eq_refl eq_refl eq_refl eq_refl) as (E & R & _).
  split; [exact E | exact (proj1 (R eq_refl))].
Defined.

(** ** C8: the loader's DPI reaches the output *)

(** C8: when the loader returns, [process_images] is the conversion call
    run in the state where the converter's [dpi_x]/[dpi_y] hold the
    returned pair; the converter still holds it afterwards, and every page
    of a file that the call writes carries that pair, whatever the
    metadata of the images. *)
Theorem converter_dpi_from_loader env folder_path output_file compression quality
    color_space w image_list dpi_x dpi_y w1 :
  load_images env folder_path color_space w = (Ok (image_list, dpi_x, dpi_y), w1) ->
  process_images env folder_path output_file compression quality color_space w =
    convert_images_to_tiff env image_list output_file compression quality
      (set_converter (JpegToTiffConverter.mk dpi_x dpi_y) w1) /\
  converter (snd (process_images env folder_path output_file compression quality
                    color_space w)) = JpegToTiffConverter.mk dpi_x dpi_y /\
  (image_list <> [] ->
   fst (process_images env folder_path output_file compression quality
          color_space w) = Ok tt ->
   exists pages,
     files (snd (process_images env folder_path output_file compression quality
                   color_space w)) !! output_file = Some pages /\
     map page_image pages = image_list /\
     Forall (fun page => page_dpi page = (dpi_x, dpi_y)) pages).
Proof.
  intros H. rewrite process_images_unfold, H.
  split; [reflexivity|]. split; [apply convert_images_to_tiff_converter|].
  intros NE R. destruct image_list as [|first rest]; [contradiction|].
  destruct (Image_save_error env (first :: rest) output_file compression quality)
    as [e|] eqn:Sv.
  - unfold convert_images_to_tiff, bind, Image_save in R. rewrite Sv in R.
    discriminate R.
  - rewrite convert_images_to_tiff_saved by exact Sv.
    eexists. cbn [snd files log_line set_files]. rewrite lookup_insert_eq.
    split; [reflexivity|]. split.
    + rewrite List.map_map. cbn [page_image]. apply List.map_id.
    + apply List.Forall_forall. intros page Hin.
      apply List.in_map_iff in Hin as (im & <- & _). reflexivity.
Qed.

(** C8, witness: the sample folder, whose images carry 300 DPI and none. *)
Lemma converter_dpi_from_loader_witness :
  converter (snd (process_images sample_env "testImages" "output_compressed.tif"
                    "jpeg" 30 "YCbCr" world0)) = JpegToTiffConverter.mk 300 300 /\
  exists pages,
    files (snd (process_images sample_env "testImages" "output_compressed.tif"
                  "jpeg" 30 "YCbCr" world0)) !! "output_compressed.tif"
      = Some pages /\
    map page_image pages =
      [mkImage "testImages/a.jpg" "YCbCr" (Some (300 # 1, 300 # 1));
       mkImage "testImages/b.png" "YCbCr" None] /\
    Forall (fun page => page_dpi page = (300, 300)) pages.
Proof.
  pose proof (converter_dpi_from_loader sample_env "testImages"
                "output_compressed.tif" "jpeg" 30 "YCbCr" world0 _ 300 300
                (snd (load_images sample_env "testImages" "YCbCr" world0))
                eq_refl) as (_ & C & P).
  split; [exact C|]. apply P; [discriminate | reflexivity].
Defined.

(** ** C9: a loader that is used again *)

(** C9: after a call of [load_images] that returns, the loader's fields
    hold the returned DPI; a later call on the same loader returns that
    pair again when no decoded image has metadata, and in particular when
    the folder has no matching file, where the state is left as it was. *)
Theorem loader_reuse_keeps_dpi env folder_path color_space w image_list dpi_x dpi_y
    w1 :
  load_images env folder_path color_space w = (Ok (image_list, dpi_x, dpi_y), w1) ->
  loader w1 = JpegImageLoader.mk dpi_x dpi_y /\
  (forall env2 folder2 color_space2 filenames2 image_list2 dpi_x2 dpi_y2 w2,
     os_listdir env2 folder2 = Ok filenames2 ->
     (forall g i, In g filenames2 -> decoded env2 folder2 g = Some i ->
                  info_dpi i = None) ->
     load_images env2 folder2 color_space2 w1
       = (Ok (image_list2, dpi_x2, dpi_y2), w2) ->
     (dpi_x2, dpi_y2) = (dpi_x, dpi_y)) /\
  (forall env2 folder2 color_space2 filenames2,
     os_listdir env2 folder2 = Ok filenames2 ->
     (forall g, In g filenames2 -> selected g = false) ->
     load_images env2 folder2 color_space2 w1 = (Ok ([], dpi_x, dpi_y), w1)).
Proof.
  intros H. apply load_images_returns in H as (fs & L & E & D).
  split; [exact D|]. split.
  - intros env2 folder2 color_space2 filenames2 image_list2 dpi_x2 dpi_y2 w2 L2 N H2.
    apply load_images_returns in H2 as (fs2 & L2' & E2 & D2).
    rewrite L2 in L2'. injection L2' as <-.
    apply load_loop_dpi in E2. unfold last_wins in E2.
    rewrite (last_metadata_none _ _ N), D2, D in E2.
    injection E2 as -> ->. reflexivity.
  - intros env2 folder2 color_space2 filenames2 L2 N.
    rewrite (load_images_listing _ _ _ filenames2) by exact L2.
    rewrite load_loop_none_selected by exact N. rewrite D. reflexivity.
Qed.

(** C9, witness: the sample folder sets 300 DPI, and the same loader then
    answers (300, 300), not (100, 100), for the folder without images. *)
Lemma loader_reuse_keeps_dpi_witness :
  loader (snd (load_images sample_env "testImages" "YCbCr" world0)) =
    JpegImageLoader.mk 300 300 /\
  fst (load_images sample_env "docs" "YCbCr"
         (snd (load_images sample_env "testImages" "YCbCr" world0))) =
    Ok ([], 300, 300) /\
  (300, 300) <> (100, 100).
Proof.
  pose proof (loader_reuse_keeps_dpi sample_env "testImages" "YCbCr" world0 _ 300 300
                (snd (load_images sample_env "testImages" "YCbCr" world0))
                eq_refl) as (D & _ & R).
  split; [exact D|]. split; [|discriminate].
  rewrite (R sample_env "docs" "YCbCr" ["notes.txt"; "old.bmp"] eq_refl).
  - reflexivity.
  - intros g [<-|[<-|[]]]; reflexivity.
Defined.

(** ** C10: what the recovery does not cover *)

(** C10: an exception of the folder listing, whatever its class, leaves
    [load_images] (and [process_images]) at once, with nothing printed or
    changed; and an exception raised inside the per-file body, at the
    decode or at the conversion, that is not an [IOError]/[OSError] leaves
    the loop without the remaining files being visited. *)
Theorem recovery_only_oserror_in_body env folder_path color_space :
  (forall e output_file compression quality w,
     os_listdir env folder_path = Raise e ->
     load_images env folder_path color_space w = (Raise e, w) /\
     process_images env folder_path output_file compression quality color_space w
       = (Raise e, w)) /\
  (forall filename e rest image_list w,
     selected filename = true ->
     is_OSError (exc_type e) = false ->
     Image_open env (path_join folder_path filename) = Raise e ->
     load_loop env folder_path color_space (filename :: rest) image_list w
       = (Raise e, w)) /\
  (forall filename img e rest image_list w,
     selected filename = true ->
     is_OSError (exc_type e) = false ->
     Image_open env (path_join folder_path filename) = Ok img ->
     Image_convert env img color_space = Raise e ->
     load_loop env folder_path color_space (filename :: rest) image_list w
       = (Raise e, set_loader (resolve_dpi (loader w) img) w)).
Proof.
  split; [|split].
  - intros e output_file compression quality w L.
    pose proof (load_images_listdir_raise env folder_path color_space e w L) as E.
    split; [exact E|]. rewrite process_images_unfold, E. reflexivity.
  - intros filename e rest image_list w S C O.
    rewrite load_loop_cons, (load_file_open_raise _ _ _ _ e), C by assumption.
    reflexivity.
  - intros filename img e rest image_list w S C O Cv.
    rewrite load_loop_cons, (load_file_convert_raise _ _ _ _ img e), C by assumption.
    reflexivity.
Qed.

(** C10, witness: a folder that does not exist, the decompression-bomb
    refusal of [big.png], and a colour space PIL does not know. *)
Lemma recovery_only_oserror_in_body_witness :
  is_OSError (exc_type no_such_file) = true /\
  load_images sample_env "nowhere" "RGB" world0 = (Raise no_such_file, world0) /\
  process_images sample_env "nowhere" "out.tif" "jpeg" 30 "RGB" world0
    = (Raise no_such_file, world0) /\
  load_loop sample_env "huge" "RGB" ["big.png"; "a.jpg"] [] world0 =
    (Raise (Exn DecompressionBombError
              "Image size exceeds limit, could be decompression bomb DOS attack."),
     world0) /\
  load_loop sample_env "testImages" "XYZ" ["a.jpg"; "b.png"] [] world0 =
    (Raise (Exn ValueError "conversion not supported"),
     set_loader (JpegImageLoader.mk 300 300) world0).
Proof.
  split; [reflexivity|].
  destruct (recovery_only_oserror_in_body sample_env "nowhere" "RGB") as (A & _ & _).
  destruct (A no_such_file "out.tif" "jpeg" 30 world0 eq_refl) as [A1 A2].
  split; [exact A1|]. split; [exact A2|]. split.
  - apply (proj1 (proj2 (recovery_only_oserror_in_body sample_env "huge" "RGB")));
      reflexivity.
  - apply (proj2 (proj2 (recovery_only_oserror_in_body sample_env "testImages" "XYZ"))
             "a.jpg" img_a (Exn ValueError "conversion not supported"));
      reflexivity.
Defined.


(** * Further properties of the code *)

(** ** What a returning loop has done *)

Lemma load_loop_returns env folder_path color_space filenames image_list w
    image_list' w' :
  load_loop env folder_path color_space filenames image_list w
    = (Ok image_list', w') ->
  image_list' =
    (image_list ++ collect (page_of env folder_path color_space) filenames)%list /\
  stdout w' =
    (stdout w ++ collect (line_of env folder_path color_space) filenames)%list /\
  (length image_list' + length (stdout w') =
   length image_list + length (stdout w) + length (List.filter selected filenames))%nat.
Proof.
  revert image_list w. induction filenames as [|f rest IH]; intros image_list w H.
  - injection H as <- <-. cbn. rewrite !app_nil_r. repeat split. lia.
  - rewrite load_loop_cons in H.
    cbn [collect List.filter]. unfold page_of, line_of, failure_of, decoded.
    destruct (classify env folder_path color_space f)
      as [S|[(S & e & O)|[(S & img & e & O & C)|(S & img & page & O & C)]]];
      rewrite S; try rewrite O; try rewrite C.
    + rewrite load_file_not_selected in H by exact S.
      apply IH in H. exact H.
    + rewrite (load_file_open_raise _ _ _ _ e) in H by assumption.
      destruct (is_OSError (exc_type e)); [|discriminate H].
      apply IH in H as (E1 & E2 & Len). cbn [stdout log_line] in E2, Len.
      rewrite length_app in Len. cbn [length] in *.
      split; [exact E1|]. split; [rewrite E2, <- app_assoc; reflexivity | lia].
    + rewrite (load_file_convert_raise _ _ _ _ img e) in H by assumption.
      destruct (is_OSError (exc_type e)); [|discriminate H].
      apply IH in H as (E1 & E2 & Len). cbn [stdout log_line set_loader] in E2, Len.
      rewrite length_app in Len. cbn [length] in *.
      split; [exact E1|]. split; [rewrite E2, <- app_assoc; reflexivity | lia].
    + rewrite (load_file_loaded _ _ _ _ img page) in H by assumption.
      apply IH in H as (E1 & E2 & Len). cbn [stdout set_loader] in E2, Len.
      rewrite length_app in Len. cbn [length] in *.
      split; [rewrite E1, <- app_assoc; reflexivity|]. split; [exact E2 | lia].
Qed.

(** X1: when [load_images] returns, the returned sequence holds exactly the
    converted images of the matching files that open and convert, in the
    order of the listing, also when other files of the folder fail. *)
Theorem load_images_returns_loaded_pages env folder_path color_space filenames
    image_list dpi_x dpi_y w w' :
  os_listdir env folder_path = Ok filenames ->
  load_images env folder_path color_space w = (Ok (image_list, dpi_x, dpi_y), w') ->
  image_list = collect (page_of env folder_path color_space) filenames.
Proof.
  intros L H. apply load_images_returns in H as (fs & L' & E & _).
  rewrite L in L'. injection L' as <-.
  apply load_loop_returns in E as (-> & _). reflexivity.
Qed.

(** X1, witness: the sample folder, where [c.jpeg] is skipped. *)
Lemma load_images_returns_loaded_pages_witness :
  [mkImage "testImages/a.jpg" "YCbCr" (Some (300 # 1, 300 # 1));
   mkImage "testImages/b.png" "YCbCr" None] =
  collect (page_of sample_env "testImages" "YCbCr")
    ["a.jpg"; "notes.txt"; "b.png"; "c.jpeg"].
Proof.
  apply (load_images_returns_loaded_pages sample_env "testImages" "YCbCr"
           ["a.jpg"; "notes.txt"; "b.png"; "c.jpeg"] _ 300 300 world0
           (snd (load_images sample_env "testImages" "YCbCr" world0))
           eq_refl eq_refl).
Defined.

(** X2: when [load_images] returns, the console has grown by exactly one
    "Error loading image" line per matching file that failed with an
    [OSError], at the decode or at the conversion, in the order of the
    listing. *)
Theorem load_images_error_lines env folder_path color_space filenames image_list
    dpi_x dpi_y w w' :
  os_listdir env folder_path = Ok filenames ->
  load_images env folder_path color_space w = (Ok (image_list, dpi_x, dpi_y), w') ->
  stdout w' =
    (stdout w ++ collect (line_of env folder_path color_space) filenames)%list.
Proof.
  intros L H. apply load_images_returns in H as (fs & L' & E & _).
  rewrite L in L'. injection L' as <-.
  apply load_loop_returns in E as (_ & E & _). exact E.
Qed.

(** X2, witness: the sample folder prints one line, for [c.jpeg]. *)
Lemma load_images_error_lines_witness :
  stdout (snd (load_images sample_env "testImages" "YCbCr" world0)) =
    ([] ++ collect (line_of sample_env "testImages" "YCbCr")
             ["a.jpg"; "notes.txt"; "b.png"; "c.jpeg"])%list /\
  collect (line_of sample_env "testImages" "YCbCr")
    ["a.jpg"; "notes.txt"; "b.png"; "c.jpeg"] =
    ["Error loading image c.jpeg: cannot identify image file"].
Proof.
  split; [|reflexivity].
  apply (load_images_error_lines sample_env "testImages" "YCbCr"
           ["a.jpg"; "notes.txt"; "b.png"; "c.jpeg"] _ 300 300 world0
           (snd (load_images sample_env "testImages" "YCbCr" world0))
           eq_refl eq_refl).
Defined.

(** X3: when [load_images] returns, every matching entry of the listing is
    accounted for once: the number of returned images plus the number of
    lines printed is the number of matching entries. *)
Theorem load_images_accounts_for_every_file env folder_path color_space filenames
    image_list dpi_x dpi_y w w' :
  os_listdir env folder_path = Ok filenames ->
  load_images env folder_path color_space w = (Ok (image_list, dpi_x, dpi_y), w') ->
  (length image_list + length (stdout w') =
   length (stdout w) + length (List.filter selected filenames))%nat.
Proof.
  intros L H. apply load_images_returns in H as (fs & L' & E & _).
  rewrite L in L'. injection L' as <-.
  apply load_loop_returns in E as (_ & _ & Len). cbn [length] in Len. lia.
Qed.

(** X3, witness: the sample folder: two images and one line for three
    matching entries. *)
Lemma load_images_accounts_for_every_file_witness :
  (2 + length (stdout (snd (load_images sample_env "testImages" "YCbCr" world0))) =
   0 + length (List.filter selected ["a.jpg"; "notes.txt"; "b.png"; "c.jpeg"]))%nat.
Proof.
  apply (load_images_accounts_for_every_file sample_env "testImages" "YCbCr"
           ["a.jpg"; "notes.txt"; "b.png"; "c.jpeg"] _ 300 300 world0
           (snd (load_images sample_env "testImages" "YCbCr" world0))
           eq_refl eq_refl).
Defined.

(** ** What the loader leaves alone *)

Lemma load_file_stdout env folder_path color_space filename image_list w :
  exists lines,
    stdout (snd (load_file env folder_path color_space filename image_list w)) =
      (stdout w ++ lines)%list.
Proof.
  destruct (classify env folder_path color_space filename)
    as [S|[(S & e & O)|[(S & img & e & O & C)|(S & img & page & O & C)]]].
  - rewrite load_file_not_selected by exact S. exists []. symmetry. apply app_nil_r.
  - rewrite (load_file_open_raise _ _ _ _ e) by assumption.
    destruct (is_OSError (exc_type e)).
    + exists [error_line filename e]. reflexivity.
    + exists []. symmetry. apply app_nil_r.
  - rewrite (load_file_convert_raise _ _ _ _ img e) by assumption.
    destruct (is_OSError (exc_type e)).
    + exists [error_line filename e]. reflexivity.
    + exists []. symmetry. apply app_nil_r.
  - rewrite (load_file_loaded _ _ _ _ img page) by assumption.
    exists []. symmetry. apply app_nil_r.
Qed.

Lemma load_loop_stdout env folder_path color_space filenames image_list w :
  exists lines,
    stdout (snd (load_loop env folder_path color_space filenames image_list w)) =
      (stdout w ++ lines)%list.
Proof.
  revert image_list w. induction filenames as [|f rest IH]; intros image_list w.
  - exists []. symmetry. apply app_nil_r.
  - rewrite load_loop_cons.
    destruct (load_file_stdout env folder_path color_space f image_list w)
      as (lines & E).
    destruct (load_file env folder_path color_space f image_list w) as [[l|e] w1];
      cbn [snd] in E.
    + destruct (IH l w1) as (lines' & E'). exists (lines ++ lines')%list.
      rewrite E', E, app_assoc. reflexivity.
    + exists lines. exact E.
Qed.

(** X4: whether it returns or raises, [load_images] writes no file, leaves
    the converter as it is, and only adds lines to the console. *)
Theorem load_images_frame env folder_path color_space w :
  converter (snd (load_images env folder_path color_space w)) = converter w /\
  files (snd (load_images env folder_path color_space w)) = files w /\
  exists lines,
    stdout (snd (load_images env folder_path color_space w)) =
      (stdout w ++ lines)%list.
Proof.
  destruct (os_listdir env folder_path) as [filenames|e] eqn:L.
  - rewrite (load_images_listing _ _ _ filenames) by exact L.
    destruct (load_loop_frame env folder_path color_space filenames [] w) as [Hc Hf].
    destruct (load_loop_stdout env folder_path color_space filenames [] w)
      as (lines & Hs).
    destruct (load_loop env folder_path color_space filenames [] w) as [[l|e] w1];
      cbn [snd] in *; repeat split; try assumption; exists lines; exact Hs.
  - rewrite (load_images_listdir_raise _ _ _ e) by exact L.
    repeat split. exists []. symmetry. apply app_nil_r.
Qed.

(** ** What the loader reads *)

Lemma load_loop_agree env1 env2 folder_path color_space filenames image_list w :
  (forall filename, In filename filenames -> selected filename = true ->
     Image_open env1 (path_join folder_path filename) =
     Image_open env2 (path_join folder_path filename)) ->
  (forall img, Image_convert env1 img color_space = Image_convert env2 img color_space) ->
  load_loop env1 folder_path color_space filenames image_list w =
  load_loop env2 folder_path color_space filenames image_list w.
Proof.
  intros HO HC. revert image_list w.
  induction filenames as [|f rest IH]; intros image_list w; [reflexivity|].
  rewrite !load_loop_cons.
  assert (E : load_file env1 folder_path color_space f image_list w =
              load_file env2 folder_path color_space f image_list w).
  { unfold load_file. destruct (selected f) eqn:S; [|reflexivity].
    unfold try_except, load_body, bind, call, read_dpi.
    rewrite (HO f (or_introl eq_refl) S).
    destruct (Image_open env2 (path_join folder_path f)) as [img|e]; [|reflexivity].
    rewrite HC. reflexivity. }
  rewrite E.
  destruct (load_file env2 folder_path color_space f image_list w) as [[l|e] w1];
    [|reflexivity].
  apply IH. intros g Hg. apply HO. right. exact Hg.
Qed.

(** X6: [load_images] reads the environment only through the folder
    listing, the matching files of that folder, and the conversion to the
    requested colour space: two environments that agree on these give the
    same result and the same state, whatever else they hold. *)
Theorem load_images_reads_only_matching_files env1 env2 folder_path color_space
    filenames w :
  os_listdir env1 folder_path = Ok filenames ->
  os_listdir env2 folder_path = Ok filenames ->
  (forall filename, In filename filenames -> selected filename = true ->
     Image_open env1 (path_join folder_path filename) =
     Image_open env2 (path_join folder_path filename)) ->
  (forall img, Image_convert env1 img color_space = Image_convert env2 img color_space) ->
  load_images env1 folder_path color_space w =
  load_images env2 folder_path color_space w.
Proof.
  intros L1 L2 HO HC.
  rewrite (load_images_listing env1 _ _ filenames) by exact L1.
  rewrite (load_images_listing env2 _ _ filenames) by exact L2.
  rewrite (load_loop_agree env1 env2) by assumption. reflexivity.
Qed.

(** X6, witness: the sample folders and the ones where [page1.JPG] of
    [scans] is unreadable agree on [testImages]. *)
Lemma load_images_reads_only_matching_files_witness :
  load_images sample_env "testImages" "RGB" world0 =
  load_images unreadable_env "testImages" "RGB" world0.
Proof.
  apply (load_images_reads_only_matching_files sample_env unreadable_env
           "testImages" "RGB" ["a.jpg"; "notes.txt"; "b.png"; "c.jpeg"] world0
           eq_refl eq_refl).
  - intros f [<-|[<-|[<-|[<-|[]]]]] S; reflexivity.
  - reflexivity.
Defined.

(** ** Calling the loader again *)

Lemma load_loop_result_any_state env folder_path color_space filenames image_list
    w1 w2 :
  fst (load_loop env folder_path color_space filenames image_list w1) =
  fst (load_loop env folder_path color_space filenames image_list w2).
Proof.
  revert image_list w1 w2.
  induction filenames as [|f rest IH]; intros image_list w1 w2; [reflexivity|].
  rewrite !load_loop_cons.
  destruct (classify env folder_path color_space f)
    as [S|[(S & e & O)|[(S & img & e & O & C)|(S & img & page & O & C)]]].
  - rewrite !load_file_not_selected by exact S. apply IH.
  - rewrite !(load_file_open_raise _ _ _ _ e) by assumption.
    destruct (is_OSError (exc_type e)); [apply IH | reflexivity].
  - rewrite !(load_file_convert_raise _ _ _ _ img e) by assumption.
    destruct (is_OSError (exc_type e)); [apply IH | reflexivity].
  - rewrite !(load_file_loaded _ _ _ _ img page) by assumption. apply IH.
Qed.

Lemma last_wins_twice (pick : string -> option Image) (filenames : list string)
    (start : JpegImageLoader.t) :
  last_wins pick filenames (last_wins pick filenames start) =
  last_wins pick filenames start.
Proof. unfold last_wins. destruct (last_metadata pick filenames); reflexivity. Qed.

(** X7: a second call of [load_images] on the same loader and folder
    returns the same images and the same DPI as the first, and leaves the
    loader's fields as the first call set them. *)
Theorem load_images_again env folder_path color_space w image_list dpi_x dpi_y w1 :
  load_images env folder_path color_space w = (Ok (image_list, dpi_x, dpi_y), w1) ->
  fst (load_images env folder_path color_space w1) = Ok (image_list, dpi_x, dpi_y) /\
  loader (snd (load_images env folder_path color_space w1)) = loader w1.
Proof.
  intros H. apply load_images_returns in H as (fs & L & E & D).
  rewrite (load_images_listing _ _ _ fs) by exact L.
  pose proof (load_loop_result_any_state env folder_path color_space fs [] w1 w) as R.
  rewrite E in R. cbn [fst] in R.
  destruct (load_loop env folder_path color_space fs [] w1) as [r w2] eqn:E2.
  cbn [fst] in R. subst r. cbn [fst snd].
  apply load_loop_dpi in E, E2. rewrite E, last_wins_twice, <- E in E2.
  rewrite E2, D. split; reflexivity.
Qed.

(** X7, witness: the sample folder, loaded twice. *)
Lemma load_images_again_witness :
  fst (load_images sample_env "testImages" "YCbCr"
         (snd (load_images sample_env "testImages" "YCbCr" world0))) =
    Ok ([mkImage "testImages/a.jpg" "YCbCr" (Some (300 # 1, 300 # 1));
         mkImage "testImages/b.png" "YCbCr" None], 300, 300).
Proof.
  apply (proj1 (load_images_again sample_env "testImages" "YCbCr" world0 _ 300 300
                  (snd (load_images sample_env "testImages" "YCbCr" world0))
                  eq_refl)).
Defined.

(** X8: the DPI that [load_images] returns does not depend on the colour
    space asked for: two calls from the same state that both return give
    the same pair, whichever conversions failed. *)
Theorem dpi_independent_of_color_space env folder_path color_space1 color_space2 w
    image_list1 dpi_x1 dpi_y1 w1 image_list2 dpi_x2 dpi_y2 w2 :
  load_images env folder_path color_space1 w
    = (Ok (image_list1, dpi_x1, dpi_y1), w1) ->
  load_images env folder_path color_space2 w
    = (Ok (image_list2, dpi_x2, dpi_y2), w2) ->
  (dpi_x1, dpi_y1) = (dpi_x2, dpi_y2).
Proof.
  intros H1 H2.
  apply load_images_returns in H1 as (fs1 & L1 & E1 & D1).
  apply load_images_returns in H2 as (fs2 & L2 & E2 & D2).
  rewrite L1 in L2. injection L2 as <-.
  apply load_loop_dpi in E1, E2. rewrite <- E2, D1, D2 in E1.
  injection E1 as -> ->. reflexivity.
Qed.

(** X8, witness: the folder [scans], whose only file converts to no
    colour space, asked for RGB and for YCbCr. *)
Lemma dpi_independent_of_color_space_witness :
  fst (load_images sample_env "scans" "RGB" world0) = Ok ([], 300, 300) /\
  fst (load_images sample_env "scans" "YCbCr" world0) = Ok ([], 300, 300) /\
  (300, 300) = (300, 300).
Proof.
  split; [reflexivity|]. split; [reflexivity|].
  apply (dpi_independent_of_color_space sample_env "scans" "RGB" "YCbCr" world0
           [] 300 300 (snd (load_images sample_env "scans" "RGB" world0))
           [] 300 300 (snd (load_images sample_env "scans" "YCbCr" world0))
           eq_refl eq_refl).
Defined.

(** ** The converter *)

(** X9: on a non-empty sequence, when the save succeeds,
    [convert_images_to_tiff] returns normally; the file at the output path
    is replaced by one page per image, in order, each with the
    converter's DPI, the compression and the quality; no other file is
    touched; the only line printed is the confirmation; and the loader
    and the converter keep their fields. *)
Theorem convert_images_to_tiff_writes env image_list output_file compression
    quality w :
  image_list <> [] ->
  Image_save_error env image_list output_file compression quality = None ->
  fst (convert_images_to_tiff env image_list output_file compression quality w)
    = Ok tt /\
  files (snd (convert_images_to_tiff env image_list output_file compression
                quality w)) !! output_file =
    Some (map (fun im =>
                 mkPage im (JpegToTiffConverter.dpi_x (converter w),
                            JpegToTiffConverter.dpi_y (converter w))
                   compression quality) image_list) /\
  (forall path, path <> output_file ->
     files (snd (convert_images_to_tiff env image_list output_file compression
                   quality w)) !! path = files w !! path) /\
  stdout (snd (convert_images_to_tiff env image_list output_file compression
                 quality w)) =
    (stdout w ++ [String.append "testImages successfully saved to " output_file])%list /\
  loader (snd (convert_images_to_tiff env image_list output_file compression
                 quality w)) = loader w /\
  converter (snd (convert_images_to_tiff env image_list output_file compression
                    quality w)) = converter w.
Proof.
  intros NE Sv. destruct image_list as [|first rest]; [contradiction|].
  rewrite convert_images_to_tiff_saved by exact Sv.
  cbn [fst snd files stdout loader converter log_line set_files].
  split; [reflexivity|]. split; [apply lookup_insert_eq|].
  split; [|repeat split].
  intros path NEp. apply lookup_insert_ne. congruence.
Qed.

(** X9, witness: two images written over nothing, beside an older file. *)
Lemma convert_images_to_tiff_writes_witness :
  files (snd (convert_images_to_tiff sample_env [img_a; img_b] "out.tif" "jpeg" 30
                used_world)) !! "out.tif" =
    Some [mkPage img_a (72, 72) "jpeg" 30; mkPage img_b (72, 72) "jpeg" 30] /\
  files (snd (convert_images_to_tiff sample_env [img_a; img_b] "out.tif" "jpeg" 30
                used_world)) !! "archive.tif" =
    Some [mkPage img_b (72, 72) "raw" 100].
Proof.
  pose proof (convert_images_to_tiff_writes sample_env [img_a; img_b] "out.tif"
                "jpeg" 30 used_world ltac:(discriminate) eq_refl)
    as (_ & W & O & _).
  split; [exact W|].
  rewrite (O "archive.tif") by discriminate. reflexivity.
Defined.

(** ** The orchestrator *)

(** X10: when the save raises, [process_images] raises the same exception:
    the confirmation is not printed, and the converter is left holding the
    DPI the loader returned. *)
Theorem process_images_save_raises env folder_path output_file compression quality
    color_space w image_list dpi_x dpi_y w1 e :
  load_images env folder_path color_space w = (Ok (image_list, dpi_x, dpi_y), w1) ->
  image_list <> [] ->
  Image_save_error env image_list output_file compression quality = Some e ->
  fst (process_images env folder_path output_file compression quality
         color_space w) = Raise e /\
  stdout (snd (process_images env folder_path output_file compression quality
                 color_space w)) = stdout w1 /\
  converter (snd (process_images env folder_path output_file compression quality
                    color_space w)) = JpegToTiffConverter.mk dpi_x dpi_y /\
  loader (snd (process_images env folder_path output_file compression quality
                 color_space w)) = JpegImageLoader.mk dpi_x dpi_y.
Proof.
  intros H NE Sv. rewrite process_images_unfold, H.
  apply load_images_returns in H as (_ & _ & _ & D).
  destruct image_list as [|first rest]; [contradiction|].
  unfold convert_images_to_tiff, bind, Image_save. rewrite Sv.
  cbn [fst snd stdout converter loader set_converter]. repeat split. exact D.
Qed.

(** X10, witness: the sample folder when the output cannot be written. *)
Lemma process_images_save_raises_witness :
  process_images readonly_env "testImages" "output_compressed.tif" "jpeg" 30
    "YCbCr" world0 =
  (Raise permission_denied,
   mkWorld (JpegImageLoader.mk 300 300) (JpegToTiffConverter.mk 300 300)
     ["Error loading image c.jpeg: cannot identify image file"] ∅).
Proof.
  pose proof (process_images_save_raises readonly_env "testImages"
                "output_compressed.tif" "jpeg" 30 "YCbCr" world0 _ 300 300
                (snd (load_images readonly_env "testImages" "YCbCr" world0))
                permission_denied eq_refl ltac:(discriminate) eq_refl) as (R & _).
  destruct (process_images readonly_env "testImages" "output_compressed.tif"
              "jpeg" 30 "YCbCr" world0) as [r w'] eqn:E.
  cbn [fst] in R. subst r. vm_compute in E. injection E as <-. reflexivity.
Defined.

(** X11: when the loader raises, [process_images] raises the same
    exception in the state the loader left: the converter's fields are not
    assigned and no file is written. *)
Theorem process_images_loader_raises env folder_path output_file compression
    quality color_space w e w1 :
  load_images env folder_path color_space w = (Raise e, w1) ->
  process_images env folder_path output_file compression quality color_space w
    = (Raise e, w1) /\
  converter w1 = converter w /\
  files w1 = files w.
Proof.
  intros H. rewrite process_images_unfold, H. split; [reflexivity|].
  destruct (load_images_frame env folder_path color_space w) as (Hc & Hf & _).
  rewrite H in Hc, Hf. split; assumption.
Qed.

(** X11, witness: the folder [huge], whose first file PIL refuses. *)
Lemma process_images_loader_raises_witness :
  process_images sample_env "huge" "output_compressed.tif" "jpeg" 30 "RGB"
    used_world =
  (Raise (Exn DecompressionBombError
            "Image size exceeds limit, could be decompression bomb DOS attack."),
   used_world).
Proof.
  apply (proj1 (process_images_loader_raises sample_env "huge"
                  "output_compressed.tif" "jpeg" 30 "RGB" used_world _ _ eq_refl)).
Defined.

(** X12: whatever happens, [process_images] touches no file other than
    the one at the output path. *)
Theorem process_images_touches_only_output env folder_path output_file compression
    quality color_space w path :
  path <> output_file ->
  files (snd (process_images env folder_path output_file compression quality
                color_space w)) !! path = files w !! path.
Proof.
  intros NE. rewrite process_images_unfold.
  destruct (load_images_frame env folder_path color_space w) as (_ & Hf & _).
  destruct (load_images env folder_path color_space w) as [[[[l x] y]|e] w1];
    cbn [snd] in Hf; [|rewrite <- Hf; reflexivity].
  destruct l as [|first rest]; [cbn; rewrite <- Hf; reflexivity|].
  unfold convert_images_to_tiff, bind, Image_save, print.
  destruct (Image_save_error env (first :: rest) output_file compression quality);
    cbn [snd files set_files log_line set_converter].
  - rewrite <- Hf. reflexivity.
  - rewrite lookup_insert_ne by congruence. rewrite <- Hf. reflexivity.
Qed.

(** X12, witness: the older file survives a run on the sample folder. *)
Lemma process_images_touches_only_output_witness :
  files (snd (process_images sample_env "testImages" "output_compressed.tif"
                "jpeg" 30 "YCbCr" used_world)) !! "archive.tif" =
    Some [mkPage img_b (72, 72) "raw" 100].
Proof.
  rewrite (process_images_touches_only_output sample_env "testImages"
             "output_compressed.tif" "jpeg" 30 "YCbCr" used_world "archive.tif")
    by discriminate.
  reflexivity.
Defined.

(** ** [main] *)

Lemma load_loop_any_state env folder_path color_space filenames image_list w1 w2 :
  loader w1 = loader w2 ->
  fst (load_loop env folder_path color_space filenames image_list w1) =
  fst (load_loop env folder_path color_space filenames image_list w2) /\
  loader (snd (load_loop env folder_path color_space filenames image_list w1)) =
  loader (snd (load_loop env folder_path color_space filenames image_list w2)).
Proof.
  revert image_list w1 w2.
  induction filenames as [|f rest IH]; intros image_list w1 w2 Ld.
  - split; [reflexivity | exact Ld].
  - rewrite !load_loop_cons.
    destruct (classify env folder_path color_space f)
      as [S|[(S & e & O)|[(S & img & e & O & C)|(S & img & page & O & C)]]].
    + rewrite !load_file_not_selected by exact S. apply IH. exact Ld.
    + rewrite !(load_file_open_raise _ _ _ _ e) by assumption.
      destruct (is_OSError (exc_type e)); [apply IH; exact Ld|].
      split; [reflexivity | exact Ld].
    + rewrite !(load_file_convert_raise _ _ _ _ img e) by assumption.
      destruct (is_OSError (exc_type e)); [apply IH|split; [reflexivity|]];
        cbn [loader log_line set_loader]; rewrite Ld; reflexivity.
    + rewrite !(load_file_loaded _ _ _ _ img page) by assumption.
      apply IH. cbn [loader set_loader]. rewrite Ld. reflexivity.
Qed.

Lemma load_images_any_state env folder_path color_space w1 w2 :
  loader w1 = loader w2 ->
  fst (load_images env folder_path color_space w1) =
  fst (load_images env folder_path color_space w2) /\
  loader (snd (load_images env folder_path color_space w1)) =
  loader (snd (load_images env folder_path color_space w2)).
Proof.
  intros Ld. destruct (os_listdir env folder_path) as [filenames|e] eqn:L.
  - rewrite !(load_images_listing _ _ _ filenames) by exact L.
    destruct (load_loop_any_state env folder_path color_space filenames [] w1 w2 Ld)
      as [F D].
    destruct (load_loop env folder_path color_space filenames [] w1) as [[l1|e1] s1];
      destruct (load_loop env folder_path color_space filenames [] w2)
        as [[l2|e2] s2];
      cbn [fst snd] in *; try discriminate F.
    + injection F as <-. rewrite D. split; reflexivity.
    + injection F as <-. split; [reflexivity | exact D].
  - rewrite !(load_images_listdir_raise _ _ _ e) by exact L.
    split; [reflexivity | exact Ld].
Qed.

Lemma main_unfold env w :
  main env w =
    match process_images env "testImages" "output_compressed.tif" "jpeg" 30 "YCbCr"
            (mkWorld JpegImageLoader.init JpegToTiffConverter.init
               (stdout w) (files w)) with
    | (Ok _, w') => (Ok tt, log_line completion_line w')
    | (Raise e, w') => (Raise e, w')
    end.
Proof.
  unfold main, bind at 1 2 3. cbn [set_loader set_converter loader converter
                                   stdout files].
  destruct (process_images env "testImages" "output_compressed.tif" "jpeg" 30
              "YCbCr" _) as [[[]|e] w']; reflexivity.
Qed.

(** X13: [main] builds a new converter and a new loader: whether it returns
    or raises, with which exception, and the DPI fields the two objects
    end with depend on the environment only, not on the state [main]
    starts in. *)
Theorem main_outcome_any_state env w w' :
  fst (main env w) = fst (main env w') /\
  loader (snd (main env w)) = loader (snd (main env w')) /\
  converter (snd (main env w)) = converter (snd (main env w')).
Proof.
  rewrite !main_unfold, !process_images_unfold.
  set (s := mkWorld JpegImageLoader.init JpegToTiffConverter.init (stdout w) (files w)).
  set (s' := mkWorld JpegImageLoader.init JpegToTiffConverter.init
               (stdout w') (files w')).
  destruct (load_images_any_state env "testImages" "YCbCr" s s' eq_refl) as [F D].
  destruct (load_images_frame env "testImages" "YCbCr" s) as (C & _).
  destruct (load_images_frame env "testImages" "YCbCr" s') as (C' & _).
  destruct (load_images env "testImages" "YCbCr" s) as [[[[l x] y]|e] s1];
    destruct (load_images env "testImages" "YCbCr" s') as [[[[l' x'] y']|e'] s1'];
    cbn [fst snd] in *; try discriminate F.
  - injection F as <- <- <-.
    destruct l as [|first rest]; [cbn; auto|].
    unfold convert_images_to_tiff, bind, Image_save, print.
    destruct (Image_save_error env (first :: rest) "output_compressed.tif" "jpeg" 30);
      cbn; auto.
  - injection F as <-. rewrite C, C'. auto.
Qed.

(** X14: when [testImages] has no matching entry, [main] returns normally
    and writes no file, and still prints that the output was saved. *)
Theorem main_without_images env filenames w :
  os_listdir env "testImages" = Ok filenames ->
  (forall filename, In filename filenames -> selected filename = false) ->
  main env w =
    (Ok tt,
     mkWorld JpegImageLoader.init JpegToTiffConverter.init
       (stdout w ++ [completion_line])%list (files w)).
Proof.
  intros L N. unfold main, bind at 1 2 3.
  rewrite process_images_unfold, (load_images_listing _ _ _ filenames) by exact L.
  rewrite load_loop_none_selected by exact N. reflexivity.
Qed.

(** X14, witness: a machine whose [testImages] holds only notes. *)
Lemma main_without_images_witness :
  main (mkEnv (fun _ => Ok ["notes.txt"; "old.bmp"]) sample_open sample_convert
          (fun _ _ _ _ => None)) world0 =
    (Ok tt,
     mkWorld JpegImageLoader.init JpegToTiffConverter.init [completion_line] ∅).
Proof.
  apply (main_without_images
           (mkEnv (fun _ => Ok ["notes.txt"; "old.bmp"]) sample_open sample_convert
              (fun _ _ _ _ => None))
           ["notes.txt"; "old.bmp"] world0 eq_refl).
  intros f [<-|[<-|[]]]; reflexivity.
Defined.

(** X15: when listing [testImages] raises, [main] raises the same
    exception: nothing is printed, in particular not the completion line,
    and no file is written. *)
Theorem main_folder_missing env e w :
  os_listdir env "testImages" = Raise e ->
  main env w =
    (Raise e,
     mkWorld JpegImageLoader.init JpegToTiffConverter.init (stdout w) (files w)).
Proof.
  intros L. unfold main, bind at 1 2 3.
  rewrite process_images_unfold, (load_images_listdir_raise _ _ _ e) by exact L.
  reflexivity.
Qed.

(** X15, witness: a machine without the folder. *)
Lemma main_folder_missing_witness :
  main bare_env used_world =
    (Raise no_such_file,
     mkWorld JpegImageLoader.init JpegToTiffConverter.init
       (stdout used_world) (files used_world)).
Proof. apply (main_folder_missing bare_env no_such_file used_world eq_refl). Defined.

(** X16: when [testImages] has a matching entry, every matching entry
    opens and converts to YCbCr, and the save succeeds, [main] returns
    normally, [output_compressed.tif] holds one page per matching entry in
    the order of the listing, each with JPEG compression at quality 30,
    and the two lines printed are the confirmation and the completion. *)
Theorem main_converts_folder env filenames w :
  os_listdir env "testImages" = Ok filenames ->
  (exists filename, In filename filenames /\ selected filename = true) ->
  all_decode env "testImages" "YCbCr" filenames ->
  (forall image_list,
     Image_save_error env image_list "output_compressed.tif" "jpeg" 30 = None) ->
  exists pages w',
    main env w = (Ok tt, w') /\
    files w' !! "output_compressed.tif" = Some pages /\
    page_per_file env "testImages" "YCbCr" filenames (map page_image pages) /\
    Forall (fun page => page_compression page = "jpeg" /\ page_quality page = 30)
      pages /\
    stdout w' =
      (stdout w ++ ["testImages successfully saved to output_compressed.tif";
                    completion_line])%list.
Proof.
  intros L (f & Hin & S) A Sv.
  destruct (load_loop_all_decode env "testImages" "YCbCr" filenames []
              (set_loader JpegImageLoader.init
                 (set_converter JpegToTiffConverter.init w)) A)
    as (images & w1 & E & P & Out).
  pose proof (Forall2_length _ _ _ P) as Len.
  destruct images as [|first rest].
  { exfalso. assert (F : In f (List.filter selected filenames))
      by (apply filter_In; split; assumption).
    destruct (List.filter selected filenames); [destruct F | discriminate Len]. }
  unfold main, bind at 1 2 3.
  rewrite process_images_unfold, (load_images_listing _ _ _ filenames) by exact L.
  rewrite E. cbn [app]. rewrite convert_images_to_tiff_saved by apply Sv.
  eexists _, _. split; [reflexivity|].
  cbn [files stdout log_line set_files set_converter]. rewrite lookup_insert_eq.
  split; [reflexivity|]. split; [|split].
  - rewrite List.map_map. cbn [page_image]. rewrite List.map_id. exact P.
  - apply List.Forall_forall. intros page Hp.
    apply List.in_map_iff in Hp as (im & <- & _). split; reflexivity.
  - rewrite Out. cbn [stdout set_loader set_converter].
    rewrite <- app_assoc. reflexivity.
Qed.

(** X16, witness: the sample folder once [c.jpeg] is readable. *)
Lemma main_converts_folder_witness :
  exists pages w',
    main repaired_env world0 = (Ok tt, w') /\
    files w' !! "output_compressed.tif" = Some pages /\
    page_per_file repaired_env "testImages" "YCbCr"
      ["a.jpg"; "notes.txt"; "b.png"; "c.jpeg"] (map page_image pages) /\
    Forall (fun page => page_compression page = "jpeg" /\ page_quality page = 30)
      pages /\
    stdout w' =
      ([] ++ ["testImages successfully saved to output_compressed.tif";
              completion_line])%list.
Proof.
  apply (main_converts_folder repaired_env
           ["a.jpg"; "notes.txt"; "b.png"; "c.jpeg"] world0).
  - reflexivity.
  - exists "a.jpg". split; [left; reflexivity | reflexivity].
  - intros f [<-|[<-|[<-|[<-|[]]]]] S; try discriminate S;
      eexists _, _; split; reflexivity.
  - reflexivity.
Defined.

(** ** Rounding *)

Lemma py_round_nearest (q : Q) : (Qabs (inject_Z (py_round q) - q) <= 1 # 2)%Q.
Proof.
  unfold py_round.
  pose proof (Qfloor_le q) as Lo. pose proof (Qlt_floor q) as Hi.
  rewrite inject_Z_plus in Hi. change (inject_Z 1) with 1%Q in Hi.
  assert (Up : (inject_Z (Qfloor q + 1) == inject_Z (Qfloor q) + 1)%Q)
    by (rewrite inject_Z_plus; reflexivity).
  destruct (Qcompare_spec (q - inject_Z (Qfloor q)) (1 # 2)) as [E|E|E];
    [destruct (Z.even (Qfloor q))| |];
    try rewrite Up; apply Qabs_Qle_condition; split; lra.
Qed.

(** X17: the DPI that the loader takes from an image's metadata is, on each
    axis, an integer at distance at most one half from the metadata value. *)
Theorem resolve_dpi_nearest self img x y :
  info_dpi img = Some (x, y) ->
  (Qabs (inject_Z (JpegImageLoader.dpi_x (resolve_dpi self img)) - x) <= 1 # 2)%Q /\
  (Qabs (inject_Z (JpegImageLoader.dpi_y (resolve_dpi self img)) - y) <= 1 # 2)%Q.
Proof.
  intros E. rewrite (resolve_dpi_metadata self img (x, y) E).
  cbn [JpegImageLoader.dpi_x JpegImageLoader.dpi_y fst snd].
  split; apply py_round_nearest.
Qed.

(** X17, witness: a PNG whose pHYs chunk gives 299.9994 and 72.5 DPI. *)
Lemma resolve_dpi_nearest_witness :
  resolve_dpi JpegImageLoader.init
    (mkImage "scan.png" "RGB" (Some (2999994 # 10000, 145 # 2))) =
    JpegImageLoader.mk 300 72 /\
  (Qabs (inject_Z 300 - (2999994 # 10000)) <= 1 # 2)%Q /\
  (Qabs (inject_Z 72 - (145 # 2)) <= 1 # 2)%Q.
Proof.
  split; [reflexivity|].
  apply (resolve_dpi_nearest JpegImageLoader.init
           (mkImage "scan.png" "RGB" (Some (2999994 # 10000, 145 # 2)))
           (2999994 # 10000) (145 # 2) eq_refl).
Defined.

(** ** When the loader raises *)

Lemma load_loop_outcome env folder_path color_space filenames image_list w :
  fst (load_loop env folder_path color_space filenames image_list w) =
    match collect (fatal_of env folder_path color_space) filenames with
    | e :: _ => Raise e
    | [] =>
        Ok (image_list ++ collect (page_of env folder_path color_space) filenames)%list
    end.
Proof.
  revert image_list w. induction filenames as [|f rest IH]; intros image_list w.
  - cbn. rewrite app_nil_r. reflexivity.
  - rewrite load_loop_cons. cbn [collect].
    destruct (classify env folder_path color_space f)
      as [S|[(S & e & O)|[(S & img & e & O & C)|(S & img & page & O & C)]]].
    + replace (fatal_of env folder_path color_space f) with (@None exn)
        by (unfold fatal_of, failure_of; rewrite S; reflexivity).
      replace (page_of env folder_path color_space f) with (@None Image)
        by (unfold page_of, decoded; rewrite S; reflexivity).
      rewrite load_file_not_selected by exact S. apply IH.
    + replace (page_of env folder_path color_space f) with (@None Image)
        by (unfold page_of, decoded; rewrite S, O; reflexivity).
      replace (fatal_of env folder_path color_space f)
        with (if is_OSError (exc_type e) then None else Some e)
        by (unfold fatal_of, failure_of; rewrite S, O; reflexivity).
      rewrite (load_file_open_raise _ _ _ _ e) by assumption.
      destruct (is_OSError (exc_type e)); [apply IH | reflexivity].
    + replace (page_of env folder_path color_space f) with (@None Image)
        by (unfold page_of, decoded; rewrite S, O, C; reflexivity).
      replace (fatal_of env folder_path color_space f)
        with (if is_OSError (exc_type e) then None else Some e)
        by (unfold fatal_of, failure_of; rewrite S, O, C; reflexivity).
      rewrite (load_file_convert_raise _ _ _ _ img e) by assumption.
      destruct (is_OSError (exc_type e)); [apply IH | reflexivity].
    + replace (page_of env folder_path color_space f) with (Some page)
        by (unfold page_of, decoded; rewrite S, O, C; reflexivity).
      replace (fatal_of env folder_path color_space f) with (@None exn)
        by (unfold fatal_of, failure_of; rewrite S, O, C; reflexivity).
      rewrite (load_file_loaded _ _ _ _ img page) by assumption.
      rewrite IH.
      destruct (collect (fatal_of env folder_path color_space) rest);
        [rewrite <- app_assoc|]; reflexivity.
Qed.

(** X18: for a folder that can be listed, [load_images] returns exactly
    when no matching file fails, at the decode or at the conversion, with
    an exception that is not an [OSError]; otherwise it raises the
    exception of the first such file of the listing. *)
Theorem load_images_raises_first_fatal env folder_path color_space filenames w :
  os_listdir env folder_path = Ok filenames ->
  (collect (fatal_of env folder_path color_space) filenames = [] ->
   exists dpi_x dpi_y,
     fst (load_images env folder_path color_space w) =
       Ok (collect (page_of env folder_path color_space) filenames, dpi_x, dpi_y)) /\
  (forall e later,
     collect (fatal_of env folder_path color_space) filenames = e :: later ->
     fst (load_images env folder_path color_space w) = Raise e).
Proof.
  intros L. rewrite (load_images_listing _ _ _ filenames) by exact L.
  pose proof (load_loop_outcome env folder_path color_space filenames [] w) as O.
  destruct (load_loop env folder_path color_space filenames [] w) as [[l|e'] w1];
    cbn [fst] in *; split.
  - intros N. rewrite N in O. injection O as ->. eexists _, _. reflexivity.
  - intros e later F. rewrite F in O. discriminate O.
  - intros N. rewrite N in O. discriminate O.
  - intros e later F. rewrite F in O. injection O as ->. reflexivity.
Qed.

(** X18, witness: [testImages] returns although [c.jpeg] fails, and [huge]
    raises what its first file raises. *)
Lemma load_images_raises_first_fatal_witness :
  (exists dpi_x dpi_y,
     fst (load_images sample_env "testImages" "YCbCr" world0) =
       Ok (collect (page_of sample_env "testImages" "YCbCr")
             ["a.jpg"; "notes.txt"; "b.png"; "c.jpeg"], dpi_x, dpi_y)) /\
  fst (load_images sample_env "huge" "RGB" world0) =
    Raise (Exn DecompressionBombError
             "Image size exceeds limit, could be decompression bomb DOS attack.").
Proof.
  split.
  - apply (proj1 (load_images_raises_first_fatal sample_env "testImages" "YCbCr"
                    ["a.jpg"; "notes.txt"; "b.png"; "c.jpeg"] world0 eq_refl)).
    reflexivity.
  - apply (proj2 (load_images_raises_first_fatal sample_env "huge" "RGB"
                    ["big.png"; "a.jpg"] world0 eq_refl) _ []).
    reflexivity.
Defined.
